(** * The project scanner of [defi_nft_bot-1.py]

    A shallow embedding of [ProjectScanner] (the listing and detail
    clients and [scan_for_projects]), of the module-level set
    [sent_projects], of the messages and of the handlers of the bot,
    followed by the properties of the scan / filter / dedup pipeline and
    of the handlers.

    Python values that come out of [response.json()] are modelled by the
    type [json]; every Python operation the scanner applies to such a value
    is modelled together with the exception it raises on a value of the
    wrong shape.  JSON numbers with a fraction or an exponent (Python
    floats) are outside the model: numbers are integers.  The calls to
    [logger] are left out; none of them can raise. *)

From Stdlib Require Import ZArith QArith List Bool Ascii String.
From stdpp Require Import base decidable countable list gmap sets.
Import ListNotations.

Local Open Scope Z_scope.
Set Warnings "-register-all,-clear-no-such-hyp".

(** ** Python values *)

(** A Python [str] is a sequence of code points. *)
Definition char : Type := N.
Definition pystr : Type := list char.

(** A source literal such as ['community_data']. *)
Definition lit (s : string) : pystr :=
  map N_of_ascii (list_ascii_of_string s).
Arguments lit : simpl never.

Inductive json : Type :=
| JNull
| JBool (b : bool)
| JInt (z : Z)
| JStr (s : pystr)
| JList (l : list json)
| JDict (d : list (pystr * json)).

Inductive exn : Type :=
| AttributeError
| TypeError
| KeyError
| IndexError.

(** The outcome of evaluating a Python expression. *)
Inductive res (A : Type) : Type :=
| Val (a : A)
| Exc (e : exn).
Arguments Val {A} a.
Arguments Exc {A} e.

Global Instance res_ret : MRet res := fun A a => Val a.
Global Instance res_bind : MBind res := fun A B f r =>
  match r with
  | Val a => f a
  | Exc e => Exc e
  end.

(** [bool(v)] *)
Definition truthy (v : json) : bool :=
  match v with
  | JNull => false
  | JBool b => b
  | JInt z => negb (z =? 0)
  | JStr s => match s with [] => false | _ => true end
  | JList l => match l with [] => false | _ => true end
  | JDict d => match d with [] => false | _ => true end
  end.

(** [a or b] *)
Definition py_or (a b : json) : json := if truthy a then a else b.

Fixpoint dict_lookup (d : list (pystr * json)) (k : pystr) : option json :=
  match d with
  | [] => None
  | (k', v) :: d' => if decide (k' = k) then Some v else dict_lookup d' k
  end.

(** [v.get(k, default)]: only a dict has the method. *)
Definition py_get (v : json) (k : pystr) (default : json) : res json :=
  match v with
  | JDict d => Val (match dict_lookup d k with Some x => x | None => default end)
  | _ => Exc AttributeError
  end.

(** [len(v)] *)
Definition py_len (v : json) : res nat :=
  match v with
  | JStr s => Val (length s)
  | JList l => Val (length l)
  | JDict d => Val (length d)
  | _ => Exc TypeError
  end.

(** [v[:n]].  A dict cannot be sliced ([TypeError] up to Python 3.11,
    [KeyError] since; the model says [TypeError]), the other values
    cannot be subscripted. *)
Definition py_slice_to (n : nat) (v : json) : res json :=
  match v with
  | JStr s => Val (JStr (take n s))
  | JList l => Val (JList (take n l))
  | _ => Exc TypeError
  end.

(** [v[-n:]] for [n > 0]. *)
Definition py_slice_last (n : nat) (v : json) : res json :=
  match v with
  | JStr s => Val (JStr (drop (length s - n) s))
  | JList l => Val (JList (drop (length l - n) l))
  | _ => Exc TypeError
  end.

(** [v[0]]; the keys of a JSON object are strings, so [0] is never one. *)
Definition py_index0 (v : json) : res json :=
  match v with
  | JList (x :: _) => Val x
  | JList [] => Exc IndexError
  | JStr (c :: _) => Val (JStr [c])
  | JStr [] => Exc IndexError
  | JDict _ => Exc KeyError
  | _ => Exc TypeError
  end.

(** [v < n] for an integer literal [n]; [bool] is a subclass of [int]. *)
Definition py_lt_int (v : json) (n : Z) : res bool :=
  match v with
  | JInt z => Val (z <? n)
  | JBool b => Val ((if b then 1 else 0) <? n)
  | _ => Exc TypeError
  end.

(** The elements a [for] loop visits. *)
Definition py_iter (v : json) : res (list json) :=
  match v with
  | JList l => Val l
  | JStr s => Val (map (fun c => JStr [c]) s)
  | JDict d => Val (map (fun kv => JStr (fst kv)) d)
  | _ => Exc TypeError
  end.

Fixpoint starts_with (p s : pystr) : bool :=
  match p, s with
  | [], _ => true
  | _ :: _, [] => false
  | a :: p', b :: s' => if decide (a = b) then starts_with p' s' else false
  end.

(** [p in s] for two strings. *)
Fixpoint str_contains (p s : pystr) : bool :=
  starts_with p s ||
  match s with
  | [] => false
  | _ :: s' => str_contains p s'
  end.

(** ** The keys of [sent_projects]

    A Python set holds hashable values and compares them with [==]:
    [True] and [1] are the same member, a list or a dict is refused. *)
Inductive key : Type :=
| KNone
| KNum (z : Z)
| KStr (s : pystr).

Global Instance key_eq_dec : EqDecision key.
Proof. solve_decision. Defined.

Definition key_encode (k : key) : option (Z + pystr) :=
  match k with
  | KNone => None
  | KNum z => Some (inl z)
  | KStr s => Some (inr s)
  end.

Definition key_decode (x : option (Z + pystr)) : key :=
  match x with
  | None => KNone
  | Some (inl z) => KNum z
  | Some (inr s) => KStr s
  end.

Global Instance key_countable : Countable key.
Proof.
  apply (inj_countable' key_encode key_decode).
  intros []; reflexivity.
Defined.

(** [hash(v)], as far as set membership can tell. *)
Definition hash_key (v : json) : res key :=
  match v with
  | JNull => Val KNone
  | JBool b => Val (KNum (if b then 1 else 0))
  | JInt z => Val (KNum z)
  | JStr s => Val (KStr s)
  | JList _ | JDict _ => Exc TypeError
  end.

(** ** The network and the tasks of the event loop *)

Inductive endpoint : Type :=
| CoinsList                       (* /coins/list?include_platform=true *)
| CoinDetail (coin_id : json).    (* /coins/{coin_id} *)

(** What one [session.get] exchange gives: a status and the body as
    [response.json()] decodes it ([None] when decoding raises), or an
    exception raised anywhere inside the [try]. *)
Inductive http_result : Type :=
| Response (status : Z) (body : option json)
| TransportError.

(** A coroutine, as a tree of the actions it performs.  [HttpGet] and
    [Sleep] are the points where the coroutine is suspended ([await]);
    [SentContains] and [SentAdd] act on the global [sent_projects] and do
    not suspend. *)
Inductive task (A : Type) : Type :=
| Ret (a : A)
| Raise (e : exn)
| HttpGet (u : endpoint) (k : http_result -> task A)
| Sleep (d : Q) (k : task A)
| SentContains (x : key) (k : bool -> task A)
| SentAdd (x : key) (k : task A).
Arguments Ret {A} a.
Arguments Raise {A} e.
Arguments HttpGet {A} u k.
Arguments Sleep {A} d k.
Arguments SentContains {A} x k.
Arguments SentAdd {A} x k.

Fixpoint task_bind {A B} (f : A -> task B) (t : task A) : task B :=
  match t with
  | Ret a => f a
  | Raise e => Raise e
  | HttpGet u k => HttpGet u (fun r => task_bind f (k r))
  | Sleep d k => Sleep d (task_bind f k)
  | SentContains x k => SentContains x (fun b => task_bind f (k b))
  | SentAdd x k => SentAdd x (task_bind f k)
  end.

Global Instance task_ret : MRet task := fun A a => Ret a.
Global Instance task_mbind : MBind task := fun A B f t => task_bind f t.

(** A Python expression evaluated inside a coroutine. *)
Definition eval {A} (r : res A) : task A :=
  match r with
  | Val a => Ret a
  | Exc e => Raise e
  end.

Definition http_get (u : endpoint) : task http_result := HttpGet u Ret.
Definition sleep (d : Q) : task unit := Sleep d (Ret tt).
Definition sent_contains (x : key) : task bool := SentContains x Ret.
Definition sent_add (x : key) : task unit := SentAdd x (Ret tt).

(** ** [ProjectScanner] *)

(** [get_new_coins], after the exchange: everything between [try] and
    [except Exception] that raises gives [[]]. *)
Definition new_coins_of (r : http_result) : json :=
  match r with
  | Response status body =>
      if decide (status = 200) then
        match body with
        | Some coins =>
            match py_len coins with
            | Val n =>
                if decide (100 < n)%nat then
                  match py_slice_last 100 coins with
                  | Val newest => newest
                  | Exc _ => JList []
                  end
                else coins
            | Exc _ => JList []
            end
        | None => JList []
        end
      else JList []
  | TransportError => JList []
  end.

Definition get_new_coins : task json :=
  r ← http_get CoinsList; mret (new_coins_of r).

(** [get_coin_details], after the exchange; [None] is [JNull]. *)
Definition coin_details_of (r : http_result) : json :=
  match r with
  | Response status body =>
      if decide (status = 200) then
        match body with
        | Some details => details
        | None => JNull
        end
      else JNull
  | TransportError => JNull
  end.

Definition get_coin_details (coin_id : json) : task json :=
  r ← http_get (CoinDetail coin_id); mret (coin_details_of r).

(** The dict [project_info]. *)
Record project : Type := Project {
  pi_id : json;
  pi_name : json;
  pi_symbol : json;
  pi_description : json;
  pi_twitter_followers : json;
  pi_telegram_users : json;
  pi_homepage : json;
  pi_twitter : json;
  pi_telegram : json;
  pi_discord : json;
  pi_categories : json;
  pi_contract_address : json;
  pi_market_cap : json
}.

(** [asyncio.sleep(1.5)] *)
Definition pacing_delay : Q := 3 # 2.

(** [coins[:20]] *)
Definition candidates_per_scan : nat := 20.

(** [str.upper], [str.lower] and [str(v)] are Python's own; the scanner
    is modelled over any implementation of them. *)
Record builtins : Type := Builtins {
  str_upper : pystr -> pystr;
  str_lower : pystr -> pystr;
  py_str : json -> pystr
}.

Section Scanner.

Variable py : builtins.

(** [v.upper()] *)
Definition py_upper (v : json) : res json :=
  match v with
  | JStr s => Val (JStr (str_upper py s))
  | _ => Exc AttributeError
  end.

(** Lines 109-110: the two social metrics, [None] and [0] alike read
    as [0]. *)
Definition social_metrics (community_data : json) : res (json * json) :=
  tw ← py_get community_data (lit "twitter_followers") (JInt 0);
  tg ← py_get community_data (lit "telegram_channel_user_count") (JInt 0);
  mret (py_or tw (JInt 0), py_or tg (JInt 0)).

(** Line 113: [twitter_followers < 200 and telegram_users < 50]. *)
Definition matches_criteria (twitter_followers telegram_users : json) : res bool :=
  low_twitter ← py_lt_int twitter_followers 200;
  if low_twitter : bool then py_lt_int telegram_users 50 else mret false.

(** Lines 114-128, the entries evaluated in the order they are written. *)
Definition project_info (coin_id details links : json)
    (twitter_followers telegram_users : json) : res project :=
  name ← py_get details (lit "name") (JStr (lit "Unknown"));
  symbol ← py_get details (lit "symbol") (JStr []) ≫= py_upper;
  descriptions ← py_get details (lit "description") (JDict []);
  en ← py_get descriptions (lit "en") (JStr (lit "No description available"));
  description ← py_slice_to 500 en;
  has_homepage ← py_get links (lit "homepage") JNull;
  homepage ←
    (if truthy has_homepage
     then py_get links (lit "homepage") (JList [JStr []]) ≫= py_index0
     else mret (JStr []));
  twitter ← py_get links (lit "twitter_screen_name") (JStr []);
  telegram ← py_get links (lit "telegram_channel_identifier") (JStr []);
  chat_url ← py_get links (lit "chat_url") (JStr []);
  discord ←
    (if str_contains (lit "discord") (str_lower py (py_str py chat_url))
     then py_get links (lit "chat_url") (JList [JStr []]) ≫= py_index0
     else mret (JStr []));
  categories ← py_get details (lit "categories") (JList []);
  contract_address ← py_get details (lit "contract_address") (JStr []);
  market_data ← py_get details (lit "market_data") (JDict []);
  market_caps ← py_get market_data (lit "market_cap") (JDict []);
  market_cap ← py_get market_caps (lit "usd") (JInt 0);
  mret {| pi_id := coin_id; pi_name := name; pi_symbol := symbol;
          pi_description := description;
          pi_twitter_followers := twitter_followers;
          pi_telegram_users := telegram_users;
          pi_homepage := homepage; pi_twitter := twitter;
          pi_telegram := telegram; pi_discord := discord;
          pi_categories := categories;
          pi_contract_address := contract_address;
          pi_market_cap := market_cap |}.

(** Lines 94-136: one turn of the loop on [coin]; the result is
    [matching_projects] after the turn. *)
Definition scan_coin (coin : json) (matching_projects : list project)
    : task (list project) :=
  coin_id ← eval (py_get coin (lit "id") JNull);
  x ← eval (hash_key coin_id);
  seen ← sent_contains x;
  if seen : bool then mret matching_projects else
  details ← get_coin_details coin_id;
  if negb (truthy details) then mret matching_projects else
  community_data ← eval (py_get details (lit "community_data") (JDict []));
  links ← eval (py_get details (lit "links") (JDict []));
  metrics ← eval (social_metrics community_data);
  let twitter_followers := metrics.1 in
  let telegram_users := metrics.2 in
  ok ← eval (matches_criteria twitter_followers telegram_users);
  matching_projects' ←
    (if ok : bool then
       info ← eval (project_info coin_id details links
                      twitter_followers telegram_users);
       _ ← sent_add x;
       mret (matching_projects ++ [info])
     else mret matching_projects);
  _ ← sleep pacing_delay;
  mret matching_projects'.

Fixpoint scan_coins (coins : list json) (matching_projects : list project)
    : task (list project) :=
  match coins with
  | [] => mret matching_projects
  | coin :: rest =>
      matching_projects' ← scan_coin coin matching_projects;
      scan_coins rest matching_projects'
  end.

(** [scan_for_projects] *)
Definition scan_for_projects : task (list project) :=
  coins ← get_new_coins;
  newest ← eval (py_slice_to candidates_per_scan coins ≫= py_iter);
  scan_coins newest [].

End Scanner.

(** ** Running a coroutine to completion

    The state of the process is the set [sent_projects] and a clock that
    counts the suspensions so far; the network answers a request by the
    moment it is made and the endpoint it asks for. *)

Record world : Type := World {
  sent_projects : gset key;
  clock : nat
}.

Definition network : Type := nat -> endpoint -> http_result.

Inductive event : Type :=
| EGet (u : endpoint) (r : http_result)
| ESleep (d : Q)
| EAdd (x : key).

Record outcome (A : Type) : Type := Outcome {
  result : res A;
  final : world;
  events : list event
}.
Arguments Outcome {A} result final events.
Arguments result {A} o.
Arguments final {A} o.
Arguments events {A} o.

Definition after {A} (e : event) (o : outcome A) : outcome A :=
  Outcome (result o) (final o) (e :: events o).

Definition prefixed {A} (tr : list event) (o : outcome A) : outcome A :=
  Outcome (result o) (final o) (tr ++ events o).

Definition tick (w : world) : world :=
  World (sent_projects w) (S (clock w)).

Definition mark_sent (x : key) (w : world) : world :=
  World ({[x]} ∪ sent_projects w) (clock w).

Fixpoint run {A} (net : network) (t : task A) (w : world) : outcome A :=
  match t with
  | Ret a => Outcome (Val a) w []
  | Raise e => Outcome (Exc e) w []
  | HttpGet u k =>
      let r := net (clock w) u in
      after (EGet u r) (run net (k r) (tick w))
  | Sleep d k => after (ESleep d) (run net k (tick w))
  | SentContains x k => run net (k (bool_decide (x ∈ sent_projects w))) w
  | SentAdd x k => after (EAdd x) (run net k (mark_sent x w))
  end.

(** Scans run one after the other, each to completion. *)
Section Scans.

Variable py : builtins.
Variable net : network.

Fixpoint run_scans (n : nat) (w : world) : list (outcome (list project)) :=
  match n with
  | O => []
  | S n' =>
      let o := run net (scan_for_projects py) w in
      o :: run_scans n' (final o)
  end.

End Scans.

(** The state in which a sequence of scans leaves the process, what the
    scans did and what they handed out, in order. *)
Fixpoint world_after {A} (w : world) (os : list (outcome A)) : world :=
  match os with
  | [] => w
  | o :: os' => world_after (final o) os'
  end.

Definition all_events {A} (os : list (outcome A)) : list event :=
  concat (map events os).

(** What a scan hands to its caller: nothing when it raised. *)
Definition returned {A} (o : outcome (list A)) : list A :=
  match result o with
  | Val l => l
  | Exc _ => []
  end.

Definition all_returned {A} (os : list (outcome (list A))) : list A :=
  concat (map returned os).

(** ** Coroutines sharing the event loop

    The hourly job and the [/scan] command each start a
    [scan_for_projects] on the same event loop.  A coroutine runs alone
    from one [await] to the next; the loop then resumes whichever
    suspended coroutine it picks. *)

(** A coroutine at an [await], the state it left and what it did to get
    there. *)
Record paused (A : Type) : Type := Paused {
  rest : task A;
  state : world;
  trail : list event
}.
Arguments Paused {A} rest state trail.
Arguments rest {A} p.
Arguments state {A} p.
Arguments trail {A} p.

(** Run [t] up to its next [await]. *)
Fixpoint settle {A} (t : task A) (w : world) : paused A :=
  match t with
  | SentContains x k => settle (k (bool_decide (x ∈ sent_projects w))) w
  | SentAdd x k =>
      let p := settle k (mark_sent x w) in
      Paused (rest p) (state p) (EAdd x :: trail p)
  | _ => Paused t w []
  end.

(** Complete the [await] at which [t] is suspended and run it to the
    next one. *)
Definition resume {A} (net : network) (t : task A) (w : world) : paused A :=
  match t with
  | HttpGet u k =>
      let r := net (clock w) u in
      let p := settle (k r) (tick w) in
      Paused (rest p) (state p) (EGet u r :: trail p)
  | Sleep d k =>
      let p := settle k (tick w) in
      Paused (rest p) (state p) (ESleep d :: trail p)
  | _ => Paused t w []
  end.

(** The coroutines of the loop, the state they share and what they did
    so far. *)
Record loop (A : Type) : Type := Loop {
  pool : list (task A);
  shared : world;
  log : list event
}.
Arguments Loop {A} pool shared log.
Arguments pool {A} l.
Arguments shared {A} l.
Arguments log {A} l.

(** The loop resumes the coroutines in the order [schedule] names them. *)
Fixpoint interleave {A} (net : network) (schedule : list nat)
    (tasks : list (task A)) (w : world) : loop A :=
  match schedule with
  | [] => Loop tasks w []
  | i :: schedule' =>
      match tasks !! i with
      | Some t =>
          let p := resume net t w in
          let l := interleave net schedule' (<[i := rest p]> tasks) (state p) in
          Loop (pool l) (shared l) (trail p ++ log l)
      | None => interleave net schedule' tasks w
      end
  end.

(** What a finished coroutine handed to its caller. *)
Definition handed {A} (t : task (list A)) : list A :=
  match t with
  | Ret l => l
  | _ => []
  end.

(** A coroutine that has finished with the given result. *)
Definition finished {A} (r : res A) : task A :=
  match r with
  | Val a => Ret a
  | Exc e => Raise e
  end.

(** Line 118 before the slice: the English description of a record. *)
Definition upstream_description (details : json) : res json :=
  descriptions ← py_get details (lit "description") (JDict []);
  py_get descriptions (lit "en") (JStr (lit "No description available")).

(** Line 127: the market capitalisation in USD. *)
Definition upstream_market_cap (details : json) : res json :=
  market_data ← py_get details (lit "market_data") (JDict []);
  market_caps ← py_get market_data (lit "market_cap") (JDict []);
  py_get market_caps (lit "usd") (JInt 0).

(** The field reached from a record by the given keys is absent: one of
    the keys is missing from the object it is looked up in. *)
Fixpoint absent (path : list pystr) (v : json) : bool :=
  match path, v with
  | k :: path', JDict d =>
      match dict_lookup d k with
      | Some v' => absent path' v'
      | None => true
      end
  | _, _ => false
  end.

(** The field is present and [null]. *)
Fixpoint null_at (path : list pystr) (v : json) : bool :=
  match path, v with
  | [], JNull => true
  | k :: path', JDict d =>
      match dict_lookup d k with
      | Some v' => null_at path' v'
      | None => false
      end
  | _, _ => false
  end.

(** Empty or zero: [0], [''] or [[]]. *)
Definition empty_or_zero (v : json) : bool :=
  match v with
  | JInt 0 | JStr [] | JList [] => true
  | _ => false
  end.

(** The candidates of a scan, from the answer of the listing endpoint:
    [coins[:20]], as the [for] loop visits it. *)
Definition candidates (r : http_result) : res (list json) :=
  py_slice_to candidates_per_scan (new_coins_of r) ≫= py_iter.

(** The listing request did not give a 200. *)
Definition listing_failed (r : http_result) : Prop :=
  match r with
  | Response status _ => status <> 200
  | TransportError => True
  end.

(** ** Reading a trace *)

Definition is_detail_fetch (e : event) : bool :=
  match e with
  | EGet (CoinDetail _) _ => true
  | _ => false
  end.

Fixpoint count (f : event -> bool) (tr : list event) : nat :=
  match tr with
  | [] => 0
  | e :: tr' => (if f e then 1 else 0) + count f tr'
  end.

Definition detail_fetches (tr : list event) : nat := count is_detail_fetch tr.

Definition is_pacing_delay (e : event) : bool :=
  match e with
  | ESleep d => Qeq_bool d pacing_delay
  | _ => false
  end.

Definition pacing_delays (tr : list event) : nat := count is_pacing_delay tr.

(** The trace goes on with the pacing delay, after the store update of
    a match if there is one. *)
Definition delay_next (tr : list event) : Prop :=
  match tr with
  | ESleep d :: _ => d = pacing_delay
  | EAdd _ :: ESleep d :: _ => d = pacing_delay
  | _ => False
  end.

(** Every detail request that gave a record is followed by the pacing
    delay. *)
Fixpoint delays_follow (tr : list event) : Prop :=
  match tr with
  | [] => True
  | EGet (CoinDetail _) r :: tr' =>
      (truthy (coin_details_of r) = true -> delay_next tr') /\ delays_follow tr'
  | _ :: tr' => delays_follow tr'
  end.

(** The members added to [sent_projects], in order. *)
Fixpoint added (tr : list event) : list key :=
  match tr with
  | [] => []
  | EAdd x :: tr' => x :: added tr'
  | _ :: tr' => added tr'
  end.

(** The identifiers whose detail was requested, as members. *)
Fixpoint fetched (tr : list event) : list (res key) :=
  match tr with
  | [] => []
  | EGet (CoinDetail coin_id) _ :: tr' => hash_key coin_id :: fetched tr'
  | _ :: tr' => fetched tr'
  end.

(** The identifier of an emitted record, as a member. *)
Definition project_key (p : project) : res key := hash_key (pi_id p).

(** ** One turn of the loop, case by case *)

Section Turns.

Variable py : builtins.
Variable net : network.

(** The identifier of a candidate, as the value read from the listing
    entry and as a member of [sent_projects]. *)
Definition coin_key (coin : json) : res (json * key) :=
  coin_id ← py_get coin (lit "id") JNull;
  x ← hash_key coin_id;
  mret (coin_id, x).

(** Lines 106-113 on a fetched record: the links, the two metrics and
    the verdict. *)
Definition examine (details : json) : res (json * (json * json) * bool) :=
  community_data ← py_get details (lit "community_data") (JDict []);
  links ← py_get details (lit "links") (JDict []);
  metrics ← social_metrics community_data;
  ok ← matches_criteria metrics.1 metrics.2;
  mret (links, metrics, ok).

Inductive turn (coin : json) (acc : list project) (w : world)
    : outcome (list project) -> Prop :=
| turn_bad_coin e :
    coin_key coin = Exc e ->
    turn coin acc w (Outcome (Exc e) w [])
| turn_seen coin_id x :
    coin_key coin = Val (coin_id, x) ->
    x ∈ sent_projects w ->
    turn coin acc w (Outcome (Val acc) w [])
| turn_absent coin_id x r :
    coin_key coin = Val (coin_id, x) ->
    x ∉ sent_projects w ->
    r = net (clock w) (CoinDetail coin_id) ->
    truthy (coin_details_of r) = false ->
    turn coin acc w (Outcome (Val acc) (tick w) [EGet (CoinDetail coin_id) r])
| turn_bad_details coin_id x r e :
    coin_key coin = Val (coin_id, x) ->
    x ∉ sent_projects w ->
    r = net (clock w) (CoinDetail coin_id) ->
    truthy (coin_details_of r) = true ->
    examine (coin_details_of r) = Exc e ->
    turn coin acc w (Outcome (Exc e) (tick w) [EGet (CoinDetail coin_id) r])
| turn_no_match coin_id x r links metrics :
    coin_key coin = Val (coin_id, x) ->
    x ∉ sent_projects w ->
    r = net (clock w) (CoinDetail coin_id) ->
    truthy (coin_details_of r) = true ->
    examine (coin_details_of r) = Val (links, metrics, false) ->
    turn coin acc w
      (Outcome (Val acc) (tick (tick w))
         [EGet (CoinDetail coin_id) r; ESleep pacing_delay])
| turn_bad_record coin_id x r links metrics e :
    coin_key coin = Val (coin_id, x) ->
    x ∉ sent_projects w ->
    r = net (clock w) (CoinDetail coin_id) ->
    truthy (coin_details_of r) = true ->
    examine (coin_details_of r) = Val (links, metrics, true) ->
    project_info py coin_id (coin_details_of r) links metrics.1 metrics.2 = Exc e ->
    turn coin acc w (Outcome (Exc e) (tick w) [EGet (CoinDetail coin_id) r])
| turn_match coin_id x r links metrics info :
    coin_key coin = Val (coin_id, x) ->
    x ∉ sent_projects w ->
    r = net (clock w) (CoinDetail coin_id) ->
    truthy (coin_details_of r) = true ->
    examine (coin_details_of r) = Val (links, metrics, true) ->
    project_info py coin_id (coin_details_of r) links metrics.1 metrics.2 = Val info ->
    turn coin acc w
      (Outcome (Val (acc ++ [info])) (tick (mark_sent x (tick w)))
         [EGet (CoinDetail coin_id) r; EAdd x; ESleep pacing_delay]).

End Turns.

(** ** What a scan maintains *)

(** The store after some actions is the store before plus the members
    added, which were new and are pairwise different; every detail
    request was for an identifier that was not in the store; the records
    appended are those of the members added. *)
Record sound (acc : list project) (w : world) (o : outcome (list project))
    : Prop := Sound {
  sound_sent :
    sent_projects (final o) = list_to_set (added (events o)) ∪ sent_projects w;
  sound_fresh : Forall (fun x => x ∉ sent_projects w) (added (events o));
  sound_nodup : NoDup (added (events o));
  sound_fetched :
    Forall (fun k => exists x, k = Val x /\ x ∉ sent_projects w)
           (fetched (events o));
  sound_emitted :
    forall acc', result o = Val acc' ->
      exists new, acc' = acc ++ new /\
                  map project_key new = map Val (added (events o))
}.

(** [p] was built from the record that a detail request of the trace
    [tr] fetched, after that record passed the criteria. *)
Definition built_from (py : builtins) (tr : list event) (p : project) : Prop :=
  exists coin_id r links metrics,
    EGet (CoinDetail coin_id) r ∈ tr /\
    truthy (coin_details_of r) = true /\
    examine (coin_details_of r) = Val (links, metrics, true) /\
    project_info py coin_id (coin_details_of r) links metrics.1 metrics.2 = Val p.

(** ** Python's string builtins on ASCII text

    Enough of [str.upper], [str.lower] and [str] to run the scanner on
    concrete payloads; the theorems below hold for any three functions. *)

Definition ascii_upper (s : pystr) : pystr :=
  map (fun c : N => if ((97 <=? c) && (c <=? 122))%N then (c - 32)%N else c) s.

Definition ascii_lower (s : pystr) : pystr :=
  map (fun c : N => if ((65 <=? c) && (c <=? 90))%N then (c + 32)%N else c) s.

Definition join_with (sep : pystr) (parts : list pystr) : pystr :=
  match parts with
  | [] => []
  | p :: ps => p ++ concat (map (fun q => sep ++ q) ps)
  end.

Fixpoint digits (fuel : nat) (n : N) (acc : pystr) : pystr :=
  match fuel with
  | O => acc
  | S fuel' =>
      let acc' := (48 + n mod 10)%N :: acc in
      if (n <? 10)%N then acc' else digits fuel' (n / 10)%N acc'
  end.

Definition str_of_int (z : Z) : pystr :=
  let n := Z.abs_N z in
  let d := digits (S (N.to_nat (N.log2 n))) n [] in
  if z <? 0 then lit "-" ++ d else d.

Fixpoint ascii_repr (v : json) : pystr :=
  match v with
  | JNull => lit "None"
  | JBool true => lit "True"
  | JBool false => lit "False"
  | JInt z => str_of_int z
  | JStr s => lit "'" ++ s ++ lit "'"
  | JList l => lit "[" ++ join_with (lit ", ") (map ascii_repr l) ++ lit "]"
  | JDict d =>
      lit "{" ++
      join_with (lit ", ")
        (map (fun kv => lit "'" ++ fst kv ++ lit "': " ++ ascii_repr (snd kv)) d) ++
      lit "}"
  end.

Definition ascii_str (v : json) : pystr :=
  match v with
  | JStr s => s
  | _ => ascii_repr v
  end.

Definition ascii_builtins : builtins :=
  Builtins ascii_upper ascii_lower ascii_str.


(** ** Payloads to run the scanner on *)

(** An entry of the listing: [{id, symbol, name, platforms}]. *)
Definition summary (coin_id : string) : json :=
  JDict [(lit "id", JStr (lit coin_id));
         (lit "symbol", JStr (lit "tkn"));
         (lit "name", JStr (lit "Token"));
         (lit "platforms", JDict [])].

Definition detail_links : json :=
  JDict [(lit "homepage", JList [JStr (lit "https://token.example")]);
         (lit "twitter_screen_name", JStr (lit "token"));
         (lit "chat_url", JList [JStr (lit "https://discord.gg/token")])].

(** A detail record with the given social metrics and description. *)
Definition detail (tw tg : json) (description : pystr) : json :=
  JDict [(lit "name", JStr (lit "Token"));
         (lit "symbol", JStr (lit "tkn"));
         (lit "description", JDict [(lit "en", JStr description)]);
         (lit "community_data",
            JDict [(lit "twitter_followers", tw);
                   (lit "telegram_channel_user_count", tg)]);
         (lit "links", detail_links);
         (lit "categories", JList [JStr (lit "NFT")]);
         (lit "market_data",
            JDict [(lit "market_cap", JDict [(lit "usd", JInt 1000)])])].

(** The process right after start: nothing sent yet. *)
Definition fresh : world := World ∅ 0.

(** The process after ["foo"] has been sent. *)
Definition foo_sent : world := World {[KStr (lit "foo")]} 0.

(** A provider that lists the given entries and answers every detail
    request with the same record. *)
Definition provider (listing : list json) (details : json) : network :=
  fun _ u =>
    match u with
    | CoinsList => Response 200 (Some (JList listing))
    | CoinDetail _ => Response 200 (Some details)
    end.

(** A provider whose detail endpoint is down. *)
Definition provider_without_details (listing : list json) : network :=
  fun _ u =>
    match u with
    | CoinsList => Response 200 (Some (JList listing))
    | CoinDetail _ => Response 503 None
    end.

(** Twenty-five entries, ["c01"] to ["c25"]. *)
Definition listing25 : list json :=
  map summary
    ["c01"%string; "c02"%string; "c03"%string; "c04"%string;
     "c05"%string; "c06"%string; "c07"%string; "c08"%string;
     "c09"%string; "c10"%string; "c11"%string; "c12"%string;
     "c13"%string; "c14"%string; "c15"%string; "c16"%string;
     "c17"%string; "c18"%string; "c19"%string; "c20"%string;
     "c21"%string; "c22"%string; "c23"%string; "c24"%string;
     "c25"%string].

(** A detail record that has a symbol and nothing else, and one whose
    name is [null]. *)
Definition bare_detail : json := JDict [(lit "symbol", JStr (lit "tkn"))].
Definition nameless_detail : json :=
  JDict [(lit "name", JNull); (lit "symbol", JStr (lit "tkn"))].

(** The record built for ["foo"] from [bare_detail]. *)
Definition bare_record : project :=
  {| pi_id := JStr (lit "foo");
     pi_name := JStr (lit "Unknown");
     pi_symbol := JStr (lit "TKN");
     pi_description := JStr (lit "No description available");
     pi_twitter_followers := JInt 0;
     pi_telegram_users := JInt 0;
     pi_homepage := JStr [];
     pi_twitter := JStr [];
     pi_telegram := JStr [];
     pi_discord := JStr [];
     pi_categories := JList [];
     pi_contract_address := JStr [];
     pi_market_cap := JInt 0 |}.

(** A description of 600 characters. *)
Definition long_description : pystr := replicate 600 97%N.

(** A provider that cannot be reached, and one that refuses the key. *)
Definition unreachable : network := fun _ _ => TransportError.
Definition unauthorized : network := fun _ _ => Response 401 (Some (JDict [])).

(** ** The rest of the bot: more of Python *)

(** [s.replace(old, new)] for a non-empty [old], as the literal
    ['details_'] is: the occurrences of [old] are found from the left and
    do not overlap.  [skip] counts the characters of an occurrence still
    to be passed over. *)
Fixpoint replace_from (old new : pystr) (skip : nat) (s : pystr) : pystr :=
  match s with
  | [] => []
  | c :: s' =>
      match skip with
      | S k => replace_from old new k s'
      | O =>
          if starts_with old s
          then new ++ replace_from old new (length old - 1) s'
          else c :: replace_from old new 0 s'
      end
  end.

Definition str_replace (old new s : pystr) : pystr := replace_from old new 0 s.

(** The exceptions of the handlers: those of the scanner, [ValueError],
    [OverflowError] and what a call to Telegram raises. *)
Inductive bot_exn : Type :=
| PyExn (e : exn)
| ValueError
| OverflowError
| TelegramError.

Inductive hres (A : Type) : Type :=
| HVal (a : A)
| HExc (e : bot_exn).
Arguments HVal {A} a.
Arguments HExc {A} e.

Global Instance hres_ret : MRet hres := fun A a => HVal a.
Global Instance hres_bind : MBind hres := fun A B f r =>
  match r with
  | HVal a => f a
  | HExc e => HExc e
  end.

Definition of_res {A} (r : res A) : hres A :=
  match r with
  | Val a => HVal a
  | Exc e => HExc (PyExn e)
  end.

(** The element of a sequence that [str.join] accepts. *)
Definition as_str (v : json) : res pystr :=
  match v with
  | JStr s => Val s
  | _ => Exc TypeError
  end.

Fixpoint all_str (l : list json) : res (list pystr) :=
  match l with
  | [] => Val []
  | v :: l' => s ← as_str v; ss ← all_str l'; mret (s :: ss)
  end.

(** [sep.join(v)] *)
Definition py_join (sep : pystr) (v : json) : res pystr :=
  items ← py_iter v; parts ← all_str items; mret (join_with sep parts).

(** [v + s] for a string [s]. *)
Definition py_add_str (v : json) (s : pystr) : res json :=
  match v with
  | JStr s' => Val (JStr (s' ++ s))
  | _ => Exc TypeError
  end.

(** [a != b] between a value and a string. *)
Definition differs_from_str (v : json) (s : pystr) : bool :=
  match v with
  | JStr s' => negb (bool_decide (s' = s))
  | _ => true
  end.

(** ** The messages *)

(** The characters of the messages that are not ASCII. *)
Definition nl : pystr := [10%N].
Definition bullet : pystr := [8226%N].
Definition rocket : pystr := [128640%N].
Definition bar_chart : pystr := [128202%N].
Definition money_bag : pystr := [128176%N].
Definition eyes : pystr := [128064%N].
Definition clipboard : pystr := [128203%N].
Definition label : pystr := [127991%N].
Definition vs16 : pystr := [65039%N].
Definition link_sign : pystr := [128279%N].
Definition memo : pystr := [128221%N].
Definition info_sign : pystr := [8505%N].
Definition robot : pystr := [129302%N].
Definition magnifier : pystr := [128269%N].
Definition check_mark : pystr := [9989%N].
Definition page : pystr := [128196%N].

Definition no_description : pystr := lit "No description available".

Section Messages.

Variable py : builtins.

(** [format(z, ',.0f')] for an integer [z] is Python's own too: the
    text, or [None] when the integer is too large to convert to a float
    ([OverflowError]). *)
Variable format_f0 : Z -> option pystr.

(** [f"{v}"] *)
Definition fmt (v : json) : pystr := py_str py v.

(** [format(z, ',.0f')] for an integer [z], with the exception it
    raises. *)
Definition format_int (z : Z) : hres pystr :=
  match format_f0 z with
  | Some s => HVal s
  | None => HExc OverflowError
  end.

(** [f"{v:,.0f}"]: a number is formatted unless it is too large, a
    string refuses the format code, the other values refuse any format
    string. *)
Definition py_format_f0 (v : json) : hres pystr :=
  match v with
  | JInt z => format_int z
  | JBool b => format_int (if b then 1 else 0)
  | JStr _ => HExc ValueError
  | _ => HExc (PyExn TypeError)
  end.

(** Lines 141-157. *)
Definition format_quick_summary (project : project) : hres pystr :=
  categories ←
    (if truthy (pi_categories project)
     then of_res (py_slice_to 3 (pi_categories project) ≫= py_join (lit ", "))
     else mret (lit "N/A"));
  let message := rocket ++ lit " *New Project Alert!*" ++ nl ++ nl in
  let message := message ++
    lit "*" ++ fmt (pi_name project) ++ lit "* ($" ++ fmt (pi_symbol project)
    ++ lit ")" ++ nl ++ nl in
  let message := message ++ bar_chart ++ lit " *Stats:*" ++ nl in
  let message := message ++
    bullet ++ lit " X Followers: " ++ fmt (pi_twitter_followers project) ++ nl in
  let message := message ++
    bullet ++ lit " Telegram: " ++ fmt (pi_telegram_users project)
    ++ lit " members" ++ nl in
  let message := message ++ bullet ++ lit " Categories: " ++ categories ++ nl ++ nl in
  message ←
    (if truthy (pi_market_cap project)
     then money ← py_format_f0 (pi_market_cap project);
          mret (message ++ money_bag ++ lit " Market Cap: $" ++ money ++ nl ++ nl)
     else mret message);
  mret (message ++ eyes ++ lit " Tap 'Full Details' for more info").

(** Line 190: the description as the full message shows it. *)
Definition shown_description (description : json) : res json :=
  n ← py_len description;
  if decide (300 < n)%nat
  then cut ← py_slice_to 300 description; py_add_str cut (lit "...")
  else mret description.

(** Lines 160-194. *)
Definition format_full_details (project : project) : hres pystr :=
  let message :=
    clipboard ++ lit " *Full Details: " ++ fmt (pi_name project) ++ lit "*" ++ nl ++ nl in
  let message := message ++ lit "*Symbol:* $" ++ fmt (pi_symbol project) ++ nl in
  let message := message ++ lit "*ID:* " ++ fmt (pi_id project) ++ nl ++ nl in
  let message := message ++ lit "*" ++ bar_chart ++ lit " Social Metrics:*" ++ nl in
  let message := message ++
    bullet ++ lit " X/Twitter: " ++ fmt (pi_twitter_followers project)
    ++ lit " followers" ++ nl in
  let message := message ++
    bullet ++ lit " Telegram: " ++ fmt (pi_telegram_users project)
    ++ lit " members" ++ nl ++ nl in
  message ←
    (if truthy (pi_categories project)
     then joined ← of_res (py_join (lit ", ") (pi_categories project));
          mret (message ++ lit "*" ++ label ++ vs16 ++ lit " Categories:*" ++ nl
                ++ joined ++ nl ++ nl)
     else mret message);
  let message := message ++ lit "*" ++ link_sign ++ lit " Links:*" ++ nl in
  let message :=
    if truthy (pi_homepage project)
    then message ++ bullet ++ lit " Website: " ++ fmt (pi_homepage project) ++ nl
    else message in
  let message :=
    if truthy (pi_twitter project)
    then message ++ bullet ++ lit " Twitter: https://twitter.com/"
         ++ fmt (pi_twitter project) ++ nl
    else message in
  let message :=
    if truthy (pi_telegram project)
    then message ++ bullet ++ lit " Telegram: https://t.me/"
         ++ fmt (pi_telegram project) ++ nl
    else message in
  let message :=
    if truthy (pi_discord project)
    then message ++ bullet ++ lit " Discord: " ++ fmt (pi_discord project) ++ nl
    else message in
  let message :=
    if truthy (pi_contract_address project)
    then message ++ nl ++ lit "*" ++ memo ++ lit " Contract:* `"
         ++ fmt (pi_contract_address project) ++ lit "`" ++ nl
    else message in
  message ←
    (if truthy (pi_market_cap project)
     then money ← py_format_f0 (pi_market_cap project);
          mret (message ++ nl ++ lit "*" ++ money_bag ++ lit " Market Cap:* $"
                ++ money ++ nl)
     else mret message);
  desc ← of_res (shown_description (pi_description project));
  if truthy desc && differs_from_str desc no_description
  then mret (message ++ nl ++ lit "*" ++ info_sign ++ vs16 ++ lit " Description:*"
             ++ nl ++ fmt desc ++ nl)
  else mret message.

(** Lines 202-213. *)
Definition welcome_message : pystr :=
  robot ++ lit " *DeFi/NFT Project Scanner Bot*" ++ nl ++ nl ++
  lit "I'll automatically scan for new DeFi and NFT projects every hour!" ++ nl ++ nl ++
  lit "*Criteria:*" ++ nl ++
  bullet ++ lit " X/Twitter followers < 200" ++ nl ++
  bullet ++ lit " Telegram/Discord members < 50" ++ nl ++ nl ++
  lit "*Commands:*" ++ nl ++
  lit "/start - Start the bot" ++ nl ++
  lit "/scan - Manually trigger a scan" ++ nl ++
  lit "/stats - View bot statistics" ++ nl ++ nl ++
  lit "Sit back and relax - I'll notify you when I find matching projects! " ++ rocket.

(** Lines 236-241. *)
Definition stats_message (sent : gset key) : pystr :=
  bar_chart ++ lit " *Bot Statistics*" ++ nl ++ nl ++
  lit "Projects sent: " ++ fmt (JInt (Z.of_nat (size sent))) ++ nl ++
  lit "Status: Active " ++ check_mark ++ nl ++
  lit "Scan interval: Every hour" ++ nl.

(** Line 293: the data of the button under an alert. *)
Definition callback_data (project : project) : pystr :=
  lit "details_" ++ fmt (pi_id project).

(** Line 251: the identifier a pressed button asks for. *)
Definition project_id_of (data : pystr) : pystr :=
  str_replace (lit "details_") [] data.

(** Lines 262-276: the record rebuilt for the full details, the entries
    evaluated in the order they are written; the description is not
    cut. *)
Definition project_info_full (project_id details community_data links : json)
    : res project :=
  name ← py_get details (lit "name") (JStr (lit "Unknown"));
  symbol ← py_get details (lit "symbol") (JStr []) ≫= py_upper py;
  descriptions ← py_get details (lit "description") (JDict []);
  description ← py_get descriptions (lit "en") (JStr no_description);
  tw ← py_get community_data (lit "twitter_followers") (JInt 0);
  tg ← py_get community_data (lit "telegram_channel_user_count") (JInt 0);
  has_homepage ← py_get links (lit "homepage") JNull;
  homepage ←
    (if truthy has_homepage
     then py_get links (lit "homepage") (JList [JStr []]) ≫= py_index0
     else mret (JStr []));
  twitter ← py_get links (lit "twitter_screen_name") (JStr []);
  telegram ← py_get links (lit "telegram_channel_identifier") (JStr []);
  chat_url ← py_get links (lit "chat_url") (JStr []);
  discord ←
    (if str_contains (lit "discord") (str_lower py (py_str py chat_url))
     then py_get links (lit "chat_url") (JList [JStr []]) ≫= py_index0
     else mret (JStr []));
  categories ← py_get details (lit "categories") (JList []);
  contract_address ← py_get details (lit "contract_address") (JStr []);
  market_data ← py_get details (lit "market_data") (JDict []);
  market_caps ← py_get market_data (lit "market_cap") (JDict []);
  market_cap ← py_get market_caps (lit "usd") (JInt 0);
  mret {| pi_id := project_id; pi_name := name; pi_symbol := symbol;
          pi_description := description;
          pi_twitter_followers := py_or tw (JInt 0);
          pi_telegram_users := py_or tg (JInt 0);
          pi_homepage := homepage; pi_twitter := twitter;
          pi_telegram := telegram; pi_discord := discord;
          pi_categories := categories;
          pi_contract_address := contract_address;
          pi_market_cap := market_cap |}.

End Messages.

(** ** The handlers

    What the bot sends goes through four calls of the Telegram library;
    each of them is awaited and may raise.  The handlers are modelled in
    state-passing style over the state of the process, the recipient
    [USER_CHAT_ID] and the calls that went through. *)

Inductive outgoing : Type :=
| ReplyText (text : pystr) (markdown : bool)
| SendMessage (chat_id : Z) (text : pystr) (button : pystr) (data : pystr)
| AnswerQuery
| EditMessageText (text : pystr) (markdown : bool).

Record bot_world : Type := BotWorld {
  process : world;
  user_chat_id : option Z
}.

Record hout (A : Type) : Type := HOut {
  h_result : hres A;
  h_final : bot_world;
  h_sent : list outgoing;
  h_events : list event
}.
Arguments HOut {A} h_result h_final h_sent h_events.
Arguments h_result {A} h.
Arguments h_final {A} h.
Arguments h_sent {A} h.
Arguments h_events {A} h.

Definition handler (A : Type) : Type := bot_world -> hout A.

Global Instance handler_ret : MRet handler := fun A a b => HOut (HVal a) b [] [].
Global Instance handler_bind : MBind handler := fun A B f h b =>
  let o := h b in
  match h_result o with
  | HVal a =>
      let o' := f a (h_final o) in
      HOut (h_result o') (h_final o') (h_sent o ++ h_sent o') (h_events o ++ h_events o')
  | HExc e => HOut (HExc e) (h_final o) (h_sent o) (h_events o)
  end.

(** [if not USER_CHAT_ID] *)
Definition registered (chat : option Z) : bool :=
  match chat with
  | Some c => negb (c =? 0)
  | None => false
  end.

Definition get_chat : handler (option Z) :=
  fun b => HOut (HVal (user_chat_id b)) b [] [].

Definition set_chat (chat : Z) : handler unit :=
  fun b => HOut (HVal tt) (BotWorld (process b) (Some chat)) [] [].

Definition get_sent : handler (gset key) :=
  fun b => HOut (HVal (sent_projects (process b))) b [] [].

Definition computed {A} (r : hres A) : handler A :=
  fun b => HOut r b [] [].

Section Handlers.

Variable py : builtins.
Variable format_f0 : Z -> option pystr.
Variable net : network.

(** Whether the call made at the given moment goes through. *)
Variable telegram : nat -> outgoing -> bool.

Definition call (o : outgoing) : handler unit :=
  fun b =>
    let b' := BotWorld (tick (process b)) (user_chat_id b) in
    if telegram (clock (process b)) o
    then HOut (HVal tt) b' [o] []
    else HOut (HExc TelegramError) b' [] [].

(** [await] of a coroutine of the scanner. *)
Definition await {A} (t : task A) : handler A :=
  fun b =>
    let o := run net t (process b) in
    HOut (of_res (result o)) (BotWorld (final o) (user_chat_id b)) [] (events o).

(** [send_project_alert] *)
Definition send_project_alert (project : project) : handler unit :=
  chat ← get_chat;
  match chat with
  | Some c =>
      if negb (c =? 0) then
        summary ← computed (format_quick_summary py format_f0 project);
        call (SendMessage c summary (page ++ lit " Full Details")
                (callback_data py project))
      else mret tt
  | None => mret tt
  end.

(** [for project in projects: await send_project_alert(context, project)] *)
Fixpoint send_alerts (projects : list project) : handler unit :=
  match projects with
  | [] => mret tt
  | project :: projects' =>
      _ ← send_project_alert project; send_alerts projects'
  end.

(** [start_command], for an update from the given chat. *)
Definition start_command (chat : Z) : handler unit :=
  _ ← set_chat chat;
  call (ReplyText welcome_message true).

(** [scan_command] *)
Definition scan_command : handler unit :=
  _ ← call (ReplyText
              (magnifier ++ lit " Starting manual scan... This may take a minute.")
              false);
  projects ← await (scan_for_projects py);
  match projects with
  | _ :: _ =>
      _ ← call (ReplyText
                  (check_mark ++ lit " Found "
                   ++ fmt py (JInt (Z.of_nat (length projects)))
                   ++ lit " new project(s)!")
                  false);
      send_alerts projects
  | [] => call (ReplyText (lit "No new projects found matching criteria.") false)
  end.

(** [stats_command] *)
Definition stats_command : handler unit :=
  sent ← get_sent;
  call (ReplyText (stats_message py sent) true).

(** [button_callback], for a button whose data is [data]. *)
Definition button_callback (data : pystr) : handler unit :=
  _ ← call AnswerQuery;
  let project_id := JStr (project_id_of data) in
  details ← await (get_coin_details project_id);
  if truthy details then
    community_data ← computed (of_res (py_get details (lit "community_data") (JDict [])));
    links ← computed (of_res (py_get details (lit "links") (JDict [])));
    project_info ← computed (of_res (project_info_full py project_id details
                                       community_data links));
    full_details ← computed (format_full_details py format_f0 project_info);
    call (EditMessageText full_details true)
  else
    call (EditMessageText (lit "Sorry, couldn't fetch details for this project.") false).

(** [scheduled_scan] *)
Definition scheduled_scan : handler unit :=
  projects ← await (scan_for_projects py);
  chat ← get_chat;
  match projects with
  | _ :: _ => if registered chat then send_alerts projects else mret tt
  | [] => mret tt
  end.

End Handlers.

(** The bot right after start: nothing sent, nobody registered. *)
Definition booted : bot_world := BotWorld fresh None.

(** Telegram lets every call through. *)
Definition delivering : nat -> outgoing -> bool := fun _ _ => true.

(** [float(n)] for a natural number [n], as the integer the float
    stands for: [n] is rounded to 53 significant bits, a tie going to the
    even neighbour; [None] when the rounded value does not fit a double
    ([OverflowError], from [2^1024 - 2^970] on). *)
Definition float_of_nat (n : N) : option N :=
  let bits := N.size n in
  if (bits <=? 53)%N then Some n else
  let e := (bits - 53)%N in
  let q := N.shiftr n e in
  let rest := N.land n (N.ones e) in
  let half := N.shiftl 1 (e - 1) in
  let q' := if ((half <? rest) || ((rest =? half) && N.odd q))%N
            then (q + 1)%N else q in
  let rounded := N.shiftl q' e in
  if (N.shiftl 1 1024 <=? rounded)%N then None else Some rounded.

(** [format(z, ',.0f')] on ASCII digits: [z] is converted to a float,
    and the float is printed without a fraction, its digits in groups of
    three. *)
Fixpoint group3 (ds : pystr) (n : nat) : pystr :=
  match ds with
  | [] => []
  | d :: ds' =>
      let tail := group3 ds' (pred n) in
      if decide (n <> 0 /\ n mod 3 = 0)%nat
      then 44%N :: d :: tail
      else d :: tail
  end.

Definition ascii_format_f0 (z : Z) : option pystr :=
  match float_of_nat (Z.abs_N z) with
  | Some n =>
      let ds := digits (S (N.to_nat (N.log2 n))) n [] in
      let grouped :=
        match ds with
        | [] => []
        | d :: ds' => d :: group3 ds' (length ds')
        end in
      Some (if z <? 0 then lit "-" ++ grouped else grouped)
  | None => None
  end.

(** ** More to read from a scan *)

(** The time a trace spends asleep. *)
Fixpoint total_sleep (tr : list event) : Q :=
  match tr with
  | [] => 0
  | ESleep d :: tr' => d + total_sleep tr'
  | _ :: tr' => total_sleep tr'
  end.

(** A trace in which every sleep is the pacing delay and no more sleeps
    than detail requests occur. *)
Definition paced (tr : list event) : Prop :=
  (pacing_delays tr <= detail_fetches tr)%nat /\
  Forall (fun e => forall d, e = ESleep d -> d = pacing_delay) tr.

(** The candidate has an identifier that is not in [sent_projects]. *)
Definition unseen (w : world) (coin : json) : bool :=
  match coin_key coin with
  | Val (_, x) => bool_decide (x ∉ sent_projects w)
  | Exc _ => false
  end.

(** The identifiers added by the scans that raised. *)
Definition lost {A} (os : list (outcome A)) : list key :=
  concat (map (fun o => match result o with
                        | Val _ => []
                        | Exc _ => added (events o)
                        end) os).

(** Where a call goes, if it is an alert. *)
Definition goes_to (chat : Z) (o : outgoing) : Prop :=
  match o with
  | SendMessage c _ _ _ => c = chat
  | _ => True
  end.

Definition is_alert (o : outgoing) : bool :=
  match o with
  | SendMessage _ _ _ _ => true
  | _ => false
  end.

(** The alert for a record, as [send_project_alert] sends it to [chat]. *)
Definition alert_for (py : builtins) (format_f0 : Z -> option pystr) (chat : Z)
    (project : project) : hres outgoing :=
  summary ← format_quick_summary py format_f0 project;
  mret (SendMessage chat summary (page ++ lit " Full Details")
          (callback_data py project)).

Definition with_description (description : json) (p : project) : project :=
  {| pi_id := pi_id p; pi_name := pi_name p; pi_symbol := pi_symbol p;
     pi_description := description;
     pi_twitter_followers := pi_twitter_followers p;
     pi_telegram_users := pi_telegram_users p;
     pi_homepage := pi_homepage p; pi_twitter := pi_twitter p;
     pi_telegram := pi_telegram p; pi_discord := pi_discord p;
     pi_categories := pi_categories p;
     pi_contract_address := pi_contract_address p;
     pi_market_cap := pi_market_cap p |}.

Definition with_market_cap (market_cap : json) (p : project) : project :=
  {| pi_id := pi_id p; pi_name := pi_name p; pi_symbol := pi_symbol p;
     pi_description := pi_description p;
     pi_twitter_followers := pi_twitter_followers p;
     pi_telegram_users := pi_telegram_users p;
     pi_homepage := pi_homepage p; pi_twitter := pi_twitter p;
     pi_telegram := pi_telegram p; pi_discord := pi_discord p;
     pi_categories := pi_categories p;
     pi_contract_address := pi_contract_address p;
     pi_market_cap := market_cap |}.

(** The categories as the quick summary shows them. *)
Definition shown_categories (cs : list pystr) : pystr :=
  match cs with
  | [] => lit "N/A"
  | _ => join_with (lit ", ") (take 3 cs)
  end.

(** A provider that answers a detail request by the identifier asked
    for. *)
Definition provider_by_id (listing : list json) (details : json -> json)
    : network :=
  fun _ u =>
    match u with
    | CoinsList => Response 200 (Some (JList listing))
    | CoinDetail coin_id => Response 200 (Some (details coin_id))
    end.

(** A record with low counts whose links are [null]. *)
Definition detail_without_links : json :=
  JDict [(lit "name", JStr (lit "Broken"));
         (lit "symbol", JStr (lit "brk"));
         (lit "community_data",
            JDict [(lit "twitter_followers", JInt 1);
                   (lit "telegram_channel_user_count", JInt 1)]);
         (lit "links", JNull)].

(** ["bar"] has the broken record, every other identifier a good one. *)
Definition good_but_bar (coin_id : json) : json :=
  match coin_id with
  | JStr s =>
      if decide (s = lit "bar") then detail_without_links
      else detail (JInt 10) (JInt 5) (lit "A token")
  | _ => detail (JInt 10) (JInt 5) (lit "A token")
  end.

(** A provider that answers the listing request with the given body. *)
Definition listing_body (body : json) : network :=
  fun _ u =>
    match u with
    | CoinsList => Response 200 (Some body)
    | CoinDetail _ => Response 200 (Some (detail (JInt 10) (JInt 5) (lit "A token")))
    end.

(** The bare record with a description of 600 characters. *)
Definition long_record : project :=
  with_description (JStr long_description) bare_record.

(** The process with chat 7 registered, nothing sent. *)
Definition registered_7 : bot_world := BotWorld fresh (Some 7).

(** * Properties *)

(** ** Running a sequence of actions *)

Lemma run_bind {A B} (net : network) (t : task A) (f : A -> task B) (w : world) :
  run net (t ≫= f) w =
  let o := run net t w in
  match result o with
  | Val a => prefixed (events o) (run net (f a) (final o))
  | Exc e => Outcome (Exc e) (final o) (events o)
  end.
Proof.
  revert w. induction t as [a|e|u k IH|d k IH|x k IH|x k IH]; intros w; cbn.
  - destruct (run net (f a) w); reflexivity.
  - reflexivity.
  - specialize (IH (net (clock w) u) (tick w)). cbn in IH.
    unfold mbind, task_mbind in IH. rewrite IH.
    destruct (result (run net (k (net (clock w) u)) (tick w))); reflexivity.
  - specialize (IH (tick w)). cbn in IH.
    unfold mbind, task_mbind in IH. rewrite IH.
    destruct (result (run net k (tick w))); reflexivity.
  - apply IH.
  - specialize (IH (mark_sent x w)). cbn in IH.
    unfold mbind, task_mbind in IH. rewrite IH.
    destruct (result (run net k (mark_sent x w))); reflexivity.
Qed.

(** ** Evaluating Python expressions *)

Lemma res_bind_val {A B} (r : res A) (f : A -> res B) (b : B) :
  r ≫= f = Val b -> exists a, r = Val a /\ f a = Val b.
Proof. destruct r as [a|e]; cbn; [eauto | discriminate]. Qed.

Ltac res_inv H :=
  repeat (let a := fresh "v" in
          let Ha := fresh "Hv" in
          apply res_bind_val in H as (a & Ha & H));
  cbn in H.

Lemma coin_key_inv coin coin_id x :
  coin_key coin = Val (coin_id, x) ->
  py_get coin (lit "id") JNull = Val coin_id /\ hash_key coin_id = Val x.
Proof.
  unfold coin_key. intros H. res_inv H. injection H as <- <-. split; assumption.
Qed.

Lemma social_metrics_inv community_data metrics :
  social_metrics community_data = Val metrics ->
  exists tw tg,
    py_get community_data (lit "twitter_followers") (JInt 0) = Val tw /\
    py_get community_data (lit "telegram_channel_user_count") (JInt 0) = Val tg /\
    metrics = (py_or tw (JInt 0), py_or tg (JInt 0)).
Proof.
  unfold social_metrics. intros H.
  apply res_bind_val in H as (tw & Htw & H).
  apply res_bind_val in H as (tg & Htg & H).
  injection H as <-. eauto.
Qed.

Lemma examine_inv details links metrics ok :
  examine details = Val (links, metrics, ok) ->
  exists community_data,
    py_get details (lit "community_data") (JDict []) = Val community_data /\
    py_get details (lit "links") (JDict []) = Val links /\
    social_metrics community_data = Val metrics /\
    matches_criteria metrics.1 metrics.2 = Val ok.
Proof.
  unfold examine. intros H.
  apply res_bind_val in H as (community_data & Hcd & H).
  apply res_bind_val in H as (links' & Hlinks & H).
  apply res_bind_val in H as (metrics' & Hmetrics & H).
  apply res_bind_val in H as (ok' & Hok & H).
  injection H as <- <- <-. eauto.
Qed.

Lemma matches_criteria_int (tw tg : Z) :
  matches_criteria (JInt tw) (JInt tg) = Val (bool_decide (tw < 200 /\ tg < 50)).
Proof.
  unfold matches_criteria. cbn.
  destruct (Z.ltb_spec tw 200), (Z.ltb_spec tg 50); cbn;
    (rewrite bool_decide_eq_true_2 by lia) || (rewrite bool_decide_eq_false_2 by lia);
    reflexivity.
Qed.

Lemma examine_int_verdict details links (tw tg : Z) ok :
  examine details = Val (links, (JInt tw, JInt tg), ok) ->
  ok = bool_decide (tw < 200 /\ tg < 50).
Proof.
  intros H. apply examine_inv in H as (community_data & _ & _ & _ & Hok).
  cbn [fst snd] in Hok. rewrite matches_criteria_int in Hok. by injection Hok.
Qed.

Lemma project_info_fields py coin_id details links tw tg p :
  project_info py coin_id details links tw tg = Val p ->
  pi_id p = coin_id /\
  pi_twitter_followers p = tw /\
  pi_telegram_users p = tg /\
  py_get details (lit "name") (JStr (lit "Unknown")) = Val (pi_name p) /\
  py_get details (lit "symbol") (JStr []) ≫= py_upper py = Val (pi_symbol p) /\
  upstream_description details ≫= py_slice_to 500 = Val (pi_description p) /\
  py_get links (lit "twitter_screen_name") (JStr []) = Val (pi_twitter p) /\
  py_get links (lit "telegram_channel_identifier") (JStr []) = Val (pi_telegram p) /\
  py_get details (lit "categories") (JList []) = Val (pi_categories p) /\
  py_get details (lit "contract_address") (JStr []) = Val (pi_contract_address p) /\
  upstream_market_cap details = Val (pi_market_cap p) /\
  (exists has_homepage,
      py_get links (lit "homepage") JNull = Val has_homepage /\
      (if truthy has_homepage
       then py_get links (lit "homepage") (JList [JStr []]) ≫= py_index0
       else Val (JStr [])) = Val (pi_homepage p)) /\
  (exists chat_url,
      py_get links (lit "chat_url") (JStr []) = Val chat_url /\
      (if str_contains (lit "discord") (str_lower py (py_str py chat_url))
       then py_get links (lit "chat_url") (JList [JStr []]) ≫= py_index0
       else Val (JStr [])) = Val (pi_discord p)).
Proof.
  unfold project_info, upstream_description, upstream_market_cap. intros H.
  res_inv H. injection H as <-. cbn.
  repeat match goal with |- _ /\ _ => split end;
    try assumption; try reflexivity.
  - rewrite Hv1. cbn. rewrite Hv2. exact Hv3.
  - rewrite Hv12. cbn. rewrite Hv13. exact Hv14.
  - exists v4. split; assumption.
  - exists v8. split; assumption.
Qed.

Lemma py_slice_to_len n v v' :
  py_slice_to n v = Val v' -> exists m, py_len v' = Val m /\ (m <= n)%nat.
Proof.
  destruct v as [| | |s|l|d]; cbn; try discriminate; intros [= <-]; cbn;
    eexists; (split; [reflexivity|]); rewrite length_take; lia.
Qed.

Lemma py_get_absent v k default :
  absent [k] v = true -> py_get v k default = Val default.
Proof.
  destruct v as [| | | | |d]; cbn; try discriminate.
  destruct (dict_lookup d k); [discriminate | reflexivity].
Qed.

Lemma py_get_absent_below v k path v' :
  path <> [] ->
  absent (k :: path) v = true ->
  py_get v k (JDict []) = Val v' ->
  absent path v' = true.
Proof.
  intros Hpath. destruct v as [| | | | |d]; cbn; try discriminate.
  destruct (dict_lookup d k) as [v''|]; intros Habs [= <-]; [exact Habs|].
  destruct path; [contradiction | reflexivity].
Qed.

Lemma py_get_null v k default v' :
  null_at [k] v = true -> py_get v k default = Val v' -> v' = JNull.
Proof.
  destruct v as [| | | | |d]; cbn; try discriminate.
  destruct (dict_lookup d k) as [[| | | | |]|]; try discriminate.
  by intros _ [= <-].
Qed.

Lemma py_get_null_below v k path v' :
  null_at (k :: path) v = true ->
  py_get v k (JDict []) = Val v' ->
  null_at path v' = true.
Proof.
  destruct v as [| | | | |d]; cbn; try discriminate.
  destruct (dict_lookup d k) as [v''|]; [|discriminate].
  by intros Hnull [= <-].
Qed.

Lemma failed_listing_is_empty r : listing_failed r -> new_coins_of r = JList [].
Proof.
  destruct r as [status body|]; cbn; [|reflexivity].
  intros Hstatus. by rewrite decide_False.
Qed.

(** ** A scan, turn by turn *)

Section Turn_by_turn.

Variable py : builtins.
Variable net : network.

Lemma scan_coin_turn coin acc w :
  turn py net coin acc w (run net (scan_coin py coin acc) w).
Proof.
  unfold scan_coin.
  destruct (py_get coin (lit "id") JNull) as [coin_id|e] eqn:Hid; cbn.
  2:{ apply turn_bad_coin. unfold coin_key. rewrite Hid. reflexivity. }
  destruct (hash_key coin_id) as [x|e] eqn:Hx; cbn.
  2:{ apply turn_bad_coin. unfold coin_key. rewrite Hid. cbn. rewrite Hx. reflexivity. }
  assert (Hkey : coin_key coin = Val (coin_id, x)).
  { unfold coin_key. rewrite Hid. cbn. rewrite Hx. reflexivity. }
  case_bool_decide as Hseen; cbn.
  { eapply turn_seen; eauto. }
  set (r := net (clock w) (CoinDetail coin_id)).
  destruct (truthy (coin_details_of r)) eqn:Htruthy; cbn.
  2:{ eapply turn_absent; eauto. }
  destruct (py_get (coin_details_of r) (lit "community_data") (JDict []))
    as [community_data|e] eqn:Hcd; cbn.
  2:{ eapply turn_bad_details; eauto. unfold examine. rewrite Hcd. reflexivity. }
  destruct (py_get (coin_details_of r) (lit "links") (JDict []))
    as [links|e] eqn:Hlinks; cbn.
  2:{ eapply turn_bad_details; eauto. unfold examine. rewrite Hcd. cbn.
      rewrite Hlinks. reflexivity. }
  destruct (social_metrics community_data) as [metrics|e] eqn:Hm; cbn.
  2:{ eapply turn_bad_details; eauto. unfold examine. rewrite Hcd. cbn.
      rewrite Hlinks. cbn. rewrite Hm. reflexivity. }
  destruct (matches_criteria metrics.1 metrics.2) as [ok|e] eqn:Hok; cbn.
  2:{ eapply turn_bad_details; eauto. unfold examine. rewrite Hcd. cbn.
      rewrite Hlinks. cbn. rewrite Hm. cbn. rewrite Hok. reflexivity. }
  assert (Hex : examine (coin_details_of r) = Val (links, metrics, ok)).
  { unfold examine. rewrite Hcd. cbn. rewrite Hlinks. cbn. rewrite Hm. cbn.
    rewrite Hok. reflexivity. }
  destruct ok; cbn.
  2:{ eapply turn_no_match; eauto. }
  destruct (project_info py coin_id (coin_details_of r) links metrics.1 metrics.2)
    as [info|e] eqn:Hinfo; cbn.
  - eapply turn_match; eauto.
  - eapply turn_bad_record; eauto.
Qed.

Lemma run_scan_coins_cons coin rest acc w :
  run net (scan_coins py (coin :: rest) acc) w =
  let o := run net (scan_coin py coin acc) w in
  match result o with
  | Val acc' => prefixed (events o) (run net (scan_coins py rest acc') (final o))
  | Exc e => Outcome (Exc e) (final o) (events o)
  end.
Proof. apply run_bind. Qed.

Lemma run_scan_for_projects w :
  run net (scan_for_projects py) w =
  let r := net (clock w) CoinsList in
  after (EGet CoinsList r)
    match candidates r with
    | Val coins => run net (scan_coins py coins []) (tick w)
    | Exc e => Outcome (Exc e) (tick w) []
    end.
Proof.
  unfold scan_for_projects, candidates. cbn.
  destruct (py_slice_to candidates_per_scan (new_coins_of (net (clock w) CoinsList)))
    as [v|e]; cbn; [|reflexivity].
  destruct (py_iter v); reflexivity.
Qed.

(** Induction over the turns of a scan. *)
Lemma scan_coins_turns
    (P : list json -> list project -> world -> outcome (list project) -> Prop) :
  (forall acc w, P [] acc w (Outcome (Val acc) w [])) ->
  (forall coin rest acc w o e,
      turn py net coin acc w o -> result o = Exc e ->
      P (coin :: rest) acc w (Outcome (Exc e) (final o) (events o))) ->
  (forall coin rest acc w o acc' o',
      turn py net coin acc w o -> result o = Val acc' ->
      P rest acc' (final o) o' ->
      P (coin :: rest) acc w (prefixed (events o) o')) ->
  forall coins acc w, P coins acc w (run net (scan_coins py coins acc) w).
Proof.
  intros Hnil Hexc Hstep. induction coins as [|coin rest IH]; intros acc w.
  - apply Hnil.
  - rewrite run_scan_coins_cons. cbn zeta.
    pose proof (scan_coin_turn coin acc w) as Hturn.
    destruct (result (run net (scan_coin py coin acc) w)) as [acc'|e] eqn:Hres.
    + eapply Hstep; eauto.
    + eapply Hexc; eauto.
Qed.

End Turn_by_turn.

Lemma scan_of_empty_listing py net w :
  new_coins_of (net (clock w) CoinsList) = JList [] ->
  run net (scan_for_projects py) w
  = Outcome (Val []) (tick w) [EGet CoinsList (net (clock w) CoinsList)].
Proof.
  intros Hempty. rewrite run_scan_for_projects. cbn zeta.
  unfold candidates. rewrite Hempty. reflexivity.
Qed.

(** ** Traces *)

Lemma added_app tr1 tr2 : added (tr1 ++ tr2) = added tr1 ++ added tr2.
Proof.
  induction tr1 as [|[u r|d|x] tr1 IH]; cbn; [reflexivity|assumption|assumption|].
  now rewrite IH.
Qed.

Lemma fetched_app tr1 tr2 : fetched (tr1 ++ tr2) = fetched tr1 ++ fetched tr2.
Proof.
  induction tr1 as [|[[|c] r|d|x] tr1 IH]; cbn; try assumption; [reflexivity|].
  now rewrite IH.
Qed.

Lemma count_app f tr1 tr2 :
  count f (tr1 ++ tr2) = (count f tr1 + count f tr2)%nat.
Proof. induction tr1 as [|e tr1 IH]; cbn; [reflexivity | rewrite IH; lia]. Qed.

Lemma detail_fetches_app tr1 tr2 :
  detail_fetches (tr1 ++ tr2) = (detail_fetches tr1 + detail_fetches tr2)%nat.
Proof. apply count_app. Qed.

Lemma pacing_delays_app tr1 tr2 :
  pacing_delays (tr1 ++ tr2) = (pacing_delays tr1 + pacing_delays tr2)%nat.
Proof. apply count_app. Qed.

Lemma delay_next_app tr tr' : delay_next tr -> delay_next (tr ++ tr').
Proof.
  destruct tr as [|[u r|d|x] [|[u' r'|d'|x'] tr]]; cbn; tauto.
Qed.

Lemma delays_follow_app tr tr' :
  delays_follow tr -> delays_follow tr' -> delays_follow (tr ++ tr').
Proof.
  intros Htr Htr'. induction tr as [|[[|c] r|d|x] tr IH]; cbn in *; try tauto.
  destruct Htr as [Hnext Htr]. split; [|tauto].
  intros Ht. by apply delay_next_app, Hnext.
Qed.

(** ** What every scan maintains *)

Section Scan_invariants.

Variable py : builtins.
Variable net : network.

Lemma turn_sound coin acc w o : turn py net coin acc w o -> sound acc w o.
Proof.
  assert (Hkeep : forall tr w', added tr = [] ->
            Forall (fun k => exists x, k = Val x /\ x ∉ sent_projects w) (fetched tr) ->
            sent_projects w' = sent_projects w ->
            sound acc w (Outcome (Val acc) w' tr)).
  { intros tr w' Hadd Hfetched Hsent. split; cbn; rewrite ?Hadd.
    - set_solver.
    - constructor.
    - constructor.
    - exact Hfetched.
    - intros acc' Hacc. injection Hacc as <-. exists [].
      split; [by rewrite app_nil_r | reflexivity]. }
  assert (Hexc : forall e tr w', added tr = [] ->
            Forall (fun k => exists x, k = Val x /\ x ∉ sent_projects w) (fetched tr) ->
            sent_projects w' = sent_projects w ->
            sound acc w (Outcome (Exc e) w' tr)).
  { intros e tr w' Hadd Hfetched Hsent. split; cbn; rewrite ?Hadd.
    - set_solver.
    - constructor.
    - constructor.
    - exact Hfetched.
    - discriminate. }
  assert (Hone : forall coin_id x, coin_key coin = Val (coin_id, x) ->
            x ∉ sent_projects w ->
            Forall (fun k => exists x, k = Val x /\ x ∉ sent_projects w)
                   [hash_key coin_id]).
  { intros coin_id x Hk Hnin. apply coin_key_inv in Hk as [_ ->].
    repeat constructor. eauto. }
  intros Hturn.
  destruct Hturn as [e He|coin_id x Hk Hin|coin_id x r Hk Hnin Hr Hf
    |coin_id x r e Hk Hnin Hr Ht He|coin_id x r links metrics Hk Hnin Hr Ht He
    |coin_id x r links metrics e Hk Hnin Hr Ht He Hp
    |coin_id x r links metrics info Hk Hnin Hr Ht He Hp].
  - apply Hexc; [reflexivity | constructor | reflexivity].
  - apply Hkeep; [reflexivity | constructor | reflexivity].
  - apply Hkeep; [reflexivity | eauto | reflexivity].
  - apply Hexc; [reflexivity | eauto | reflexivity].
  - apply Hkeep; [reflexivity | eauto | reflexivity].
  - apply Hexc; [reflexivity | eauto | reflexivity].
  - split; cbn.
    + set_solver.
    + repeat constructor. exact Hnin.
    + repeat constructor. set_solver.
    + eauto.
    + intros acc' Hacc. injection Hacc as <-. exists [info]. split; [reflexivity|].
      cbn. unfold project_key.
      apply project_info_fields in Hp as (-> & _).
      apply coin_key_inv in Hk as [_ ->]. reflexivity.
Qed.

Lemma sound_raised acc w o e :
  sound acc w o -> sound acc w (Outcome (Exc e) (final o) (events o)).
Proof. intros [H1 H2 H3 H4 _]. split; cbn; try assumption. discriminate. Qed.

Lemma sound_then acc w o acc' o' :
  sound acc w o -> result o = Val acc' -> sound acc' (final o) o' ->
  sound acc w (prefixed (events o) o').
Proof.
  intros [S1 F1 N1 G1 E1] Hres [S2 F2 N2 G2 E2].
  rewrite S1 in F2, G2.
  split; cbn; rewrite ?added_app, ?fetched_app.
  - rewrite S2, S1, list_to_set_app_L. set_solver.
  - apply Forall_app. split; [exact F1|].
    eapply Forall_impl; [exact F2|]. cbn. set_solver.
  - apply NoDup_app. split_and!; [exact N1| |exact N2].
    intros x Hx1 Hx2. rewrite Forall_forall in F2.
    apply (F2 x Hx2). set_solver.
  - apply Forall_app. split; [exact G1|].
    eapply Forall_impl; [exact G2|]. cbn. intros k (x & -> & Hx).
    exists x. split; [reflexivity | set_solver].
  - intros acc'' Hacc''. destruct (E1 acc' Hres) as (new1 & -> & Hk1).
    destruct (E2 acc'' Hacc'') as (new2 & -> & Hk2).
    exists (new1 ++ new2). split; [by rewrite app_assoc|].
    by rewrite !map_app, Hk1, Hk2.
Qed.

Lemma scan_coins_sound coins acc w :
  sound acc w (run net (scan_coins py coins acc) w).
Proof.
  revert coins acc w.
  apply (scan_coins_turns py net (fun _ acc w o => sound acc w o)).
  - intros acc w. split; cbn; try constructor; [set_solver|].
    intros acc' [= <-]. exists []. split; [by rewrite app_nil_r | reflexivity].
  - intros coin rest acc w o e Hturn _.
    apply sound_raised, (turn_sound coin), Hturn.
  - intros coin rest acc w o acc' o' Hturn Hres IH.
    eapply sound_then; eauto. apply (turn_sound coin), Hturn.
Qed.

Lemma scan_sound w : sound [] w (run net (scan_for_projects py) w).
Proof.
  rewrite run_scan_for_projects. cbn zeta.
  destruct (candidates (net (clock w) CoinsList)) as [coins|e].
  - destruct (scan_coins_sound coins [] (tick w)) as [S F N G E].
    split; assumption.
  - split; cbn; try constructor; [set_solver | discriminate].
Qed.

End Scan_invariants.

(** ** How many detail requests, and for whom *)

Section Requests.

Variable py : builtins.
Variable net : network.

Lemma prefixed_nil {A} (o : outcome A) : prefixed [] o = o.
Proof. by destruct o. Qed.

Lemma turn_requests coin acc w o :
  turn py net coin acc w o ->
  (detail_fetches (events o) <= 1)%nat /\
  forall c r, EGet (CoinDetail c) r ∈ events o ->
              py_get coin (lit "id") JNull = Val c.
Proof.
  assert (Hone : forall coin_id x r tr,
            coin_key coin = Val (coin_id, x) ->
            Forall (fun e => is_detail_fetch e = false) tr ->
            (detail_fetches (EGet (CoinDetail coin_id) r :: tr) <= 1)%nat /\
            forall c r', EGet (CoinDetail c) r' ∈ EGet (CoinDetail coin_id) r :: tr ->
                         py_get coin (lit "id") JNull = Val c).
  { intros coin_id x r tr Hk Htr. apply coin_key_inv in Hk as [Hid _]. split.
    - unfold detail_fetches. cbn.
      assert (Hz : count is_detail_fetch tr = 0%nat).
      { induction Htr as [|e tr He _ IH]; cbn; [reflexivity|]. by rewrite He, IH. }
      lia.
    - intros c r' Hin. apply elem_of_cons in Hin as [Heq|Hin].
      + by injection Heq as <- _.
      + rewrite Forall_forall in Htr. apply Htr in Hin. discriminate. }
  intros [e He|coin_id x Hk Hin|coin_id x r Hk Hnin Hr Hf
    |coin_id x r e Hk Hnin Hr Ht He|coin_id x r links metrics Hk Hnin Hr Ht He
    |coin_id x r links metrics e Hk Hnin Hr Ht He Hp
    |coin_id x r links metrics info Hk Hnin Hr Ht He Hp]; cbn [events].
  1,2: split; [cbn; lia | intros c r' Hc; by apply elem_of_nil in Hc].
  all: eapply Hone; eauto; repeat constructor.
Qed.

Lemma scan_coins_requests coins acc w :
  let o := run net (scan_coins py coins acc) w in
  (detail_fetches (events o) <= length coins)%nat /\
  forall c r, EGet (CoinDetail c) r ∈ events o ->
              exists coin, coin ∈ coins /\ py_get coin (lit "id") JNull = Val c.
Proof.
  revert coins acc w.
  apply (scan_coins_turns py net (fun coins _ _ o =>
    (detail_fetches (events o) <= length coins)%nat /\
    forall c r, EGet (CoinDetail c) r ∈ events o ->
                exists coin, coin ∈ coins /\ py_get coin (lit "id") JNull = Val c)).
  - intros acc w. split; [cbn; lia|]. intros c r Hin. by apply elem_of_nil in Hin.
  - intros coin rest acc w o e Hturn _. cbn [events].
    destruct (turn_requests _ _ _ _ Hturn) as [Hn Hfor]. split; [cbn; lia|].
    intros c r Hin. exists coin. split; [left | eauto].
  - intros coin rest acc w o acc' o' Hturn _ [IHn IHfor]. cbn [events prefixed].
    destruct (turn_requests _ _ _ _ Hturn) as [Hn Hfor]. split.
    + rewrite detail_fetches_app. cbn. lia.
    + intros c r Hin. apply elem_of_app in Hin as [Hin|Hin].
      * exists coin. split; [left | eauto].
      * destruct (IHfor c r Hin) as (coin' & Hin' & Hid).
        exists coin'. split; [by right | exact Hid].
Qed.

End Requests.

(** ** Where a returned record comes from *)

Section Provenance.

Variable py : builtins.
Variable net : network.

Lemma built_from_app_l tr1 tr2 p :
  built_from py tr1 p -> built_from py (tr1 ++ tr2) p.
Proof.
  intros (coin_id & r & links & metrics & Hin & H).
  exists coin_id, r, links, metrics. split; [|exact H].
  apply elem_of_app. by left.
Qed.

Lemma built_from_app_r tr1 tr2 p :
  built_from py tr2 p -> built_from py (tr1 ++ tr2) p.
Proof.
  intros (coin_id & r & links & metrics & Hin & H).
  exists coin_id, r, links, metrics. split; [|exact H].
  apply elem_of_app. by right.
Qed.

Lemma turn_provenance coin acc w o acc' p :
  turn py net coin acc w o -> result o = Val acc' -> p ∈ acc' ->
  p ∈ acc \/ built_from py (events o) p.
Proof.
  intros [e He|coin_id x Hk Hin|coin_id x r Hk Hnin Hr Hf
    |coin_id x r e Hk Hnin Hr Ht He|coin_id x r links metrics Hk Hnin Hr Ht He
    |coin_id x r links metrics e Hk Hnin Hr Ht He Hp
    |coin_id x r links metrics info Hk Hnin Hr Ht He Hp]; cbn;
    intros Hres Hp'; try discriminate; injection Hres as <-; try by left.
  apply elem_of_app in Hp' as [Hp'|Hp']; [by left|].
  apply list_elem_of_singleton in Hp' as ->. right.
  exists coin_id, r, links, metrics. split_and!; try assumption. left.
Qed.

Lemma scan_coins_provenance coins acc w acc' p :
  result (run net (scan_coins py coins acc) w) = Val acc' -> p ∈ acc' ->
  p ∈ acc \/ built_from py (events (run net (scan_coins py coins acc) w)) p.
Proof.
  revert coins acc w acc' p.
  apply (scan_coins_turns py net (fun _ acc _ o =>
    forall acc' p, result o = Val acc' -> p ∈ acc' ->
                   p ∈ acc \/ built_from py (events o) p)).
  - intros acc w acc' p [= <-] Hp. by left.
  - intros coin rest acc w o e _ _ acc' p Hres. discriminate.
  - intros coin rest acc w o acc1 o' Hturn Hres IH acc' p Hres' Hp. cbn in *.
    destruct (IH acc' p Hres' Hp) as [Hacc1|Hbuilt].
    + destruct (turn_provenance _ _ _ _ _ _ Hturn Hres Hacc1) as [Hacc|Hbuilt];
        [by left|right].
      by apply built_from_app_l.
    + right. by apply built_from_app_r.
Qed.

Lemma scan_provenance w p :
  p ∈ returned (run net (scan_for_projects py) w) ->
  built_from py (events (run net (scan_for_projects py) w)) p.
Proof.
  unfold returned. rewrite run_scan_for_projects. cbn zeta.
  destruct (candidates (net (clock w) CoinsList)) as [coins|e]; cbn;
    [|by intros ?%elem_of_nil].
  destruct (result (run net (scan_coins py coins []) (tick w))) as [acc'|e] eqn:Hres;
    [|by intros ?%elem_of_nil].
  intros Hp.
  destruct (scan_coins_provenance coins [] (tick w) acc' p Hres Hp) as [Hnil|Hbuilt].
  - by apply elem_of_nil in Hnil.
  - change (built_from py ([EGet CoinsList (net (clock w) CoinsList)]
                        ++ events (run net (scan_coins py coins []) (tick w))) p).
    by apply built_from_app_r.
Qed.

End Provenance.

(** ** Pacing *)

Lemma turn_delays_follow py net coin acc w o acc' :
  turn py net coin acc w o -> result o = Val acc' -> delays_follow (events o).
Proof.
  intros [e He|coin_id x Hk Hin|coin_id x r Hk Hnin Hr Hf
    |coin_id x r e Hk Hnin Hr Ht He|coin_id x r links metrics Hk Hnin Hr Ht He
    |coin_id x r links metrics e Hk Hnin Hr Ht He Hp
    |coin_id x r links metrics info Hk Hnin Hr Ht He Hp]; cbn;
    try discriminate; intros _; try tauto.
  split; [|exact I]. congruence.
Qed.

Lemma scan_coins_delays_follow py net coins acc w acc' :
  result (run net (scan_coins py coins acc) w) = Val acc' ->
  delays_follow (events (run net (scan_coins py coins acc) w)).
Proof.
  revert coins acc w acc'.
  apply (scan_coins_turns py net (fun _ _ _ o =>
    forall acc', result o = Val acc' -> delays_follow (events o))).
  - intros acc w acc' _. exact I.
  - intros coin rest acc w o e _ _ acc'. discriminate.
  - intros coin rest acc w o acc1 o' Hturn Hres IH acc' Hres'. cbn in *.
    apply delays_follow_app; [by eapply turn_delays_follow | by eapply IH].
Qed.

(** ** Scans one after the other *)

Local Instance Val_inj {A} : Inj (=) (=) (@Val A).
Proof. intros a b H. by injection H. Qed.

Section Successive_scans.

Variable py : builtins.
Variable net : network.

Lemma run_scans_sound n w :
  let os := run_scans py net n w in
  sent_projects (world_after w os)
    = list_to_set (added (all_events os)) ∪ sent_projects w /\
  Forall (fun x => x ∉ sent_projects w) (added (all_events os)) /\
  NoDup (added (all_events os)) /\
  map project_key (all_returned os) `sublist_of` map Val (added (all_events os)).
Proof.
  revert w. induction n as [|n IH]; intros w; cbn zeta.
  - cbn. split_and!; [set_solver | constructor | constructor | constructor].
  - cbn [run_scans world_after all_events all_returned map concat].
    set (o := run net (scan_for_projects py) w).
    destruct (scan_sound py net w) as [S1 F1 N1 _ E1]. fold o in S1, F1, N1, E1.
    destruct (IH (final o)) as (S2 & F2 & N2 & E2).
    fold (all_events (run_scans py net n (final o))).
    fold (all_returned (run_scans py net n (final o))).
    rewrite S1 in F2, S2. rewrite added_app.
    split_and!.
    + rewrite S2, list_to_set_app_L. set_solver.
    + apply Forall_app. split; [exact F1|].
      eapply Forall_impl; [exact F2|]. cbn. set_solver.
    + apply NoDup_app. split_and!; [exact N1| |exact N2].
      intros x Hx1 Hx2. rewrite Forall_forall in F2.
      apply (F2 x Hx2). set_solver.
    + rewrite !map_app. apply sublist_app; [|exact E2].
      unfold returned. destruct (result o) as [acc'|e]; [|apply sublist_nil_l].
      destruct (E1 acc' eq_refl) as (new & -> & Hkeys). cbn. by rewrite Hkeys.
Qed.

End Successive_scans.

(** ** Scans that overlap *)

(** A coroutine that the loop resumes until it ends does what [run]
    says. *)
Lemma run_alone {A} (net : network) (t : task A) (w : world) :
  exists n,
    let p := settle t w in
    let l := interleave net (replicate n 0%nat) [rest p] (state p) in
    pool l = [finished (result (run net t w))] /\
    shared l = final (run net t w) /\
    trail p ++ log l = events (run net t w).
Proof.
  revert w. induction t as [a|e|u k IH|d k IH|x k IH|x k IH]; intros w.
  - exists 0%nat. repeat split.
  - exists 0%nat. repeat split.
  - destruct (IH (net (clock w) u) (tick w)) as (n & Hpool & Hshared & Hlog).
    exists (S n). cbn in *. rewrite Hpool, Hshared, Hlog. repeat split.
  - destruct (IH (tick w)) as (n & Hpool & Hshared & Hlog).
    exists (S n). cbn in *. rewrite Hpool, Hshared, Hlog. repeat split.
  - destruct (IH (bool_decide (x ∈ sent_projects w)) w) as (n & H).
    exists n. exact H.
  - destruct (IH (mark_sent x w)) as (n & Hpool & Hshared & Hlog).
    exists n. cbn in *. rewrite Hpool, Hshared, Hlog. repeat split.
Qed.

(** Whatever the loop does, [sent_projects] changes by [add] only. *)
Lemma settle_sent {A} (t : task A) (w : world) :
  sent_projects (state (settle t w))
  = list_to_set (added (trail (settle t w))) ∪ sent_projects w.
Proof.
  revert w. induction t as [a|e|u k IH|d k IH|x k IH|x k IH]; intros w; cbn;
    try set_solver.
  rewrite IH. cbn. set_solver.
Qed.

Lemma resume_sent {A} (net : network) (t : task A) (w : world) :
  sent_projects (state (resume net t w))
  = list_to_set (added (trail (resume net t w))) ∪ sent_projects w.
Proof.
  destruct t as [a|e|u k|d k|x k|x k]; cbn; try set_solver.
  - by rewrite settle_sent.
  - by rewrite settle_sent.
Qed.

Lemma interleave_sent {A} (net : network) schedule (tasks : list (task A)) w :
  sent_projects (shared (interleave net schedule tasks w))
  = list_to_set (added (log (interleave net schedule tasks w))) ∪ sent_projects w.
Proof.
  revert tasks w. induction schedule as [|i schedule IH]; intros tasks w; cbn.
  - set_solver.
  - destruct (tasks !! i) as [t|]; [|apply IH]. cbn.
    rewrite IH, resume_sent, added_app, list_to_set_app_L. set_solver.
Qed.

(** * The claims *)



(** C2. A candidate whose identifier is in [sent_projects] when the loop
    reaches it costs nothing: no request, nothing appended, the loop goes
    on with the next one as if the candidate were not listed.  And a scan
    started with the identifier in the store requests no detail for it
    and returns no record of it. *)
Theorem seen_candidate_not_fetched_nor_emitted
    py net coin rest acc w coin_id x :
  coin_key coin = Val (coin_id, x) ->
  x ∈ sent_projects w ->
  run net (scan_coin py coin acc) w = Outcome (Val acc) w [] /\
  run net (scan_coins py (coin :: rest) acc) w
    = run net (scan_coins py rest acc) w /\
  (Val x ∉ fetched (events (run net (scan_for_projects py) w))) /\
  (Val x ∉ map project_key (returned (run net (scan_for_projects py) w))).
Proof.
  intros Hk Hin.
  assert (Hturn : run net (scan_coin py coin acc) w = Outcome (Val acc) w []).
  { apply coin_key_inv in Hk as [Hid Hx].
    unfold scan_coin. rewrite Hid. cbn. rewrite Hx. cbn.
    by rewrite bool_decide_eq_true_2. }
  split_and!.
  - exact Hturn.
  - rewrite run_scan_coins_cons, Hturn. cbn. apply prefixed_nil.
  - destruct (scan_sound py net w) as [_ _ _ Hfetched _].
    intros Hx. rewrite Forall_forall in Hfetched.
    destruct (Hfetched _ Hx) as (x' & Heq & Hnin). injection Heq as <-. contradiction.
  - destruct (scan_sound py net w) as [_ Hfresh _ _ Hemitted].
    unfold returned.
    destruct (result (run net (scan_for_projects py) w)) as [acc'|e] eqn:Hres;
      [|by intros ?%elem_of_nil].
    destruct (Hemitted acc' eq_refl) as (new & -> & Hkeys). cbn.
    rewrite Hkeys. intros Hx. apply list_elem_of_fmap in Hx as (x' & Heq & Hx').
    injection Heq as <-. rewrite Forall_forall in Hfresh. by apply (Hfresh x).
Qed.

Lemma seen_candidate_not_fetched_nor_emitted_witness :
  run (provider [summary "foo"; summary "bar"] (detail (JInt 10) (JInt 5) (lit "A token")))
      (scan_coin ascii_builtins (summary "foo") []) foo_sent
    = Outcome (Val []) foo_sent [] /\
  run (provider [summary "foo"; summary "bar"] (detail (JInt 10) (JInt 5) (lit "A token")))
      (scan_coins ascii_builtins [summary "foo"; summary "bar"] []) foo_sent
    = run (provider [summary "foo"; summary "bar"] (detail (JInt 10) (JInt 5) (lit "A token")))
          (scan_coins ascii_builtins [summary "bar"] []) foo_sent /\
  (Val (KStr (lit "foo")) ∉
    fetched (events (run (provider [summary "foo"; summary "bar"]
                                   (detail (JInt 10) (JInt 5) (lit "A token")))
                         (scan_for_projects ascii_builtins) foo_sent))) /\
  (Val (KStr (lit "foo")) ∉
    map project_key
        (returned (run (provider [summary "foo"; summary "bar"]
                                 (detail (JInt 10) (JInt 5) (lit "A token")))
                       (scan_for_projects ascii_builtins) foo_sent))).
Proof.
  apply (seen_candidate_not_fetched_nor_emitted ascii_builtins
           (provider [summary "foo"; summary "bar"]
                     (detail (JInt 10) (JInt 5) (lit "A token")))
           (summary "foo") [summary "bar"] [] foo_sent (JStr (lit "foo"))).
  - vm_compute. reflexivity.
  - unfold foo_sent. cbn [sent_projects]. apply elem_of_singleton_2. reflexivity.
Defined.




(** Nor is there a delay after a candidate whose detail request gave
    nothing. *)
Example no_delay_after_absent_detail :
  events (run (provider_without_details [summary "foo"; summary "bar"])
              (scan_for_projects ascii_builtins) fresh)
    = [EGet CoinsList (Response 200 (Some (JList [summary "foo"; summary "bar"])));
       EGet (CoinDetail (JStr (lit "foo"))) (Response 503 None);
       EGet (CoinDetail (JStr (lit "bar"))) (Response 503 None)].
Proof. vm_compute. reflexivity. Qed.

(** C4, as the code has it.  In a record built from a detail response a
    field that is absent upstream takes a fixed default: [0] for the two
    counts and the market cap, [''] for symbol, homepage, twitter,
    telegram, discord and contract address, [[]] for the categories,
    ['Unknown'] for the name and ['No description available'] for the
    description; a count that is [null] upstream reads as [0] too. *)
Theorem absent_fields_take_defaults
    py coin_id details links metrics ok info :
  str_upper py [] = [] ->
  examine details = Val (links, metrics, ok) ->
  project_info py coin_id details links metrics.1 metrics.2 = Val info ->
  (absent [lit "name"] details = true ->
   pi_name info = JStr (lit "Unknown")) /\
  (absent [lit "symbol"] details = true -> pi_symbol info = JStr []) /\
  (absent [lit "description"; lit "en"] details = true ->
   pi_description info = JStr (lit "No description available")) /\
  (absent [lit "community_data"; lit "twitter_followers"] details = true ->
   pi_twitter_followers info = JInt 0) /\
  (absent [lit "community_data"; lit "telegram_channel_user_count"] details = true ->
   pi_telegram_users info = JInt 0) /\
  (null_at [lit "community_data"; lit "twitter_followers"] details = true ->
   pi_twitter_followers info = JInt 0) /\
  (null_at [lit "community_data"; lit "telegram_channel_user_count"] details = true ->
   pi_telegram_users info = JInt 0) /\
  (absent [lit "links"; lit "homepage"] details = true ->
   pi_homepage info = JStr []) /\
  (absent [lit "links"; lit "twitter_screen_name"] details = true ->
   pi_twitter info = JStr []) /\
  (absent [lit "links"; lit "telegram_channel_identifier"] details = true ->
   pi_telegram info = JStr []) /\
  (absent [lit "links"; lit "chat_url"] details = true ->
   pi_discord info = JStr []) /\
  (absent [lit "categories"] details = true -> pi_categories info = JList []) /\
  (absent [lit "contract_address"] details = true ->
   pi_contract_address info = JStr []) /\
  (absent [lit "market_data"; lit "market_cap"; lit "usd"] details = true ->
   pi_market_cap info = JInt 0).
Proof.
  intros Hupper Hex Hinfo.
  apply examine_inv in Hex as (community_data & Hcd & Hlinks & Hmetrics & _).
  apply project_info_fields in Hinfo
    as (_ & Htw & Htg & Hname & Hsymbol & Hdesc & Htwitter & Htelegram & Hcats
        & Hcontract & Hcap & (has_homepage & Hhas & Hhome)
        & (chat_url & Hchat & Hdiscord)).
  apply social_metrics_inv in Hmetrics as (tw & tg & Hv & Hv2 & ->).
  cbn [fst snd] in Htw, Htg.
  split_and!.
  - intros Ha. rewrite (py_get_absent _ _ _ Ha) in Hname. by injection Hname.
  - intros Ha. rewrite (py_get_absent _ _ _ Ha) in Hsymbol. cbn in Hsymbol.
    rewrite Hupper in Hsymbol. by injection Hsymbol.
  - intros Ha. unfold upstream_description in Hdesc.
    apply res_bind_val in Hdesc as (en & Hen & Hcut).
    apply res_bind_val in Hen as (descriptions & Hd & Hen).
    assert (Hbelow := py_get_absent_below _ _ [lit "en"] _ ltac:(discriminate) Ha Hd).
    rewrite (py_get_absent _ _ _ Hbelow) in Hen. injection Hen as <-.
    cbn in Hcut. by injection Hcut.
  - intros Ha.
    assert (Hbelow := py_get_absent_below _ _ [lit "twitter_followers"] _
                        ltac:(discriminate) Ha Hcd).
    rewrite (py_get_absent _ _ _ Hbelow) in Hv. injection Hv as <-.
    by rewrite Htw.
  - intros Ha.
    assert (Hbelow := py_get_absent_below _ _ [lit "telegram_channel_user_count"] _
                        ltac:(discriminate) Ha Hcd).
    rewrite (py_get_absent _ _ _ Hbelow) in Hv2. injection Hv2 as <-.
    by rewrite Htg.
  - intros Hn. assert (Hbelow := py_get_null_below _ _ _ _ Hn Hcd).
    rewrite (py_get_null _ _ _ _ Hbelow Hv) in Htw. by rewrite Htw.
  - intros Hn. assert (Hbelow := py_get_null_below _ _ _ _ Hn Hcd).
    rewrite (py_get_null _ _ _ _ Hbelow Hv2) in Htg. by rewrite Htg.
  - intros Ha.
    assert (Hbelow := py_get_absent_below _ _ [lit "homepage"] _
                        ltac:(discriminate) Ha Hlinks).
    rewrite (py_get_absent _ _ _ Hbelow) in Hhas. injection Hhas as <-.
    cbn in Hhome. by injection Hhome.
  - intros Ha.
    assert (Hbelow := py_get_absent_below _ _ [lit "twitter_screen_name"] _
                        ltac:(discriminate) Ha Hlinks).
    rewrite (py_get_absent _ _ _ Hbelow) in Htwitter. by injection Htwitter.
  - intros Ha.
    assert (Hbelow := py_get_absent_below _ _ [lit "telegram_channel_identifier"] _
                        ltac:(discriminate) Ha Hlinks).
    rewrite (py_get_absent _ _ _ Hbelow) in Htelegram. by injection Htelegram.
  - intros Ha.
    assert (Hbelow := py_get_absent_below _ _ [lit "chat_url"] _
                        ltac:(discriminate) Ha Hlinks).
    rewrite (py_get_absent _ _ _ Hbelow) in Hdiscord.
    destruct (str_contains _ _); cbn in Hdiscord; by injection Hdiscord.
  - intros Ha. rewrite (py_get_absent _ _ _ Ha) in Hcats. by injection Hcats.
  - intros Ha. rewrite (py_get_absent _ _ _ Ha) in Hcontract. by injection Hcontract.
  - intros Ha. unfold upstream_market_cap in Hcap.
    apply res_bind_val in Hcap as (market_data & Hmd & Hcap).
    apply res_bind_val in Hcap as (market_caps & Hmc & Hcap).
    assert (Hb1 := py_get_absent_below _ _ [lit "market_cap"; lit "usd"] _
                     ltac:(discriminate) Ha Hmd).
    assert (Hb2 := py_get_absent_below _ _ [lit "usd"] _
                     ltac:(discriminate) Hb1 Hmc).
    rewrite (py_get_absent _ _ _ Hb2) in Hcap. by injection Hcap.
Qed.

Lemma absent_fields_take_defaults_witness :
  returned (run (provider [summary "foo"] bare_detail)
                (scan_for_projects ascii_builtins) fresh) = [bare_record] /\
  (absent [lit "name"] bare_detail = true ->
   pi_name bare_record = JStr (lit "Unknown")) /\
  (absent [lit "symbol"] bare_detail = true -> pi_symbol bare_record = JStr []) /\
  (absent [lit "description"; lit "en"] bare_detail = true ->
   pi_description bare_record = JStr (lit "No description available")) /\
  (absent [lit "community_data"; lit "twitter_followers"] bare_detail = true ->
   pi_twitter_followers bare_record = JInt 0) /\
  (absent [lit "community_data"; lit "telegram_channel_user_count"] bare_detail = true ->
   pi_telegram_users bare_record = JInt 0) /\
  (null_at [lit "community_data"; lit "twitter_followers"] bare_detail = true ->
   pi_twitter_followers bare_record = JInt 0) /\
  (null_at [lit "community_data"; lit "telegram_channel_user_count"] bare_detail = true ->
   pi_telegram_users bare_record = JInt 0) /\
  (absent [lit "links"; lit "homepage"] bare_detail = true ->
   pi_homepage bare_record = JStr []) /\
  (absent [lit "links"; lit "twitter_screen_name"] bare_detail = true ->
   pi_twitter bare_record = JStr []) /\
  (absent [lit "links"; lit "telegram_channel_identifier"] bare_detail = true ->
   pi_telegram bare_record = JStr []) /\
  (absent [lit "links"; lit "chat_url"] bare_detail = true ->
   pi_discord bare_record = JStr []) /\
  (absent [lit "categories"] bare_detail = true -> pi_categories bare_record = JList []) /\
  (absent [lit "contract_address"] bare_detail = true ->
   pi_contract_address bare_record = JStr []) /\
  (absent [lit "market_data"; lit "market_cap"; lit "usd"] bare_detail = true ->
   pi_market_cap bare_record = JInt 0).
Proof.
  split; [vm_compute; reflexivity|].
  apply (absent_fields_take_defaults ascii_builtins (JStr (lit "foo")) bare_detail
           (JDict []) (JInt 0, JInt 0) true bare_record).
  - reflexivity.
  - vm_compute. reflexivity.
  - vm_compute. reflexivity.
Defined.

(** C4, as the claim states it, fails: a scan of a record that has no
    name and no description returns a record whose name is ['Unknown']
    and whose description is ['No description available'], neither of
    them empty. *)
Lemma absent_name_and_description_not_empty :
  exists info,
    returned (run (provider [summary "foo"] bare_detail)
                  (scan_for_projects ascii_builtins) fresh) = [info] /\
    absent [lit "name"] bare_detail = true /\
    pi_name info = JStr (lit "Unknown") /\
    empty_or_zero (pi_name info) = false /\
    absent [lit "description"; lit "en"] bare_detail = true /\
    pi_description info = JStr (lit "No description available") /\
    empty_or_zero (pi_description info) = false.
Proof. exists bare_record. vm_compute. repeat split. Qed.

(** A name that is [null] upstream is kept as it is. *)
Example null_name_is_kept :
  map pi_name
      (returned (run (provider [summary "foo"] nameless_detail)
                     (scan_for_projects ascii_builtins) fresh)) = [JNull].
Proof. vm_compute. reflexivity. Qed.

(** C5. A candidate whose detail fetch gives nothing is skipped:
    [sent_projects] and the matches gathered so far stay as they were, the
    loop goes on with the next candidate, and the candidate is requested
    again whenever a later turn meets it with the store still not holding
    it. *)
Theorem absent_detail_skipped_and_still_eligible
    py net coin rest acc w coin_id x :
  coin_key coin = Val (coin_id, x) ->
  x ∉ sent_projects w ->
  truthy (coin_details_of (net (clock w) (CoinDetail coin_id))) = false ->
  run net (scan_coin py coin acc) w
    = Outcome (Val acc) (tick w)
        [EGet (CoinDetail coin_id) (net (clock w) (CoinDetail coin_id))] /\
  sent_projects (final (run net (scan_coin py coin acc) w)) = sent_projects w /\
  run net (scan_coins py (coin :: rest) acc) w
    = after (EGet (CoinDetail coin_id) (net (clock w) (CoinDetail coin_id)))
        (run net (scan_coins py rest acc) (tick w)) /\
  (forall net' w' acc',
      x ∉ sent_projects w' ->
      exists tr,
        events (run net' (scan_coin py coin acc') w')
        = EGet (CoinDetail coin_id) (net' (clock w') (CoinDetail coin_id)) :: tr).
Proof.
  intros Hk Hnin Hf.
  apply coin_key_inv in Hk as [Hid Hx].
  assert (Hturn : run net (scan_coin py coin acc) w
            = Outcome (Val acc) (tick w)
                [EGet (CoinDetail coin_id) (net (clock w) (CoinDetail coin_id))]).
  { unfold scan_coin. rewrite Hid. cbn. rewrite Hx. cbn.
    rewrite bool_decide_eq_false_2 by exact Hnin. cbn. by rewrite Hf. }
  split_and!.
  - exact Hturn.
  - by rewrite Hturn.
  - rewrite run_scan_coins_cons, Hturn. cbn.
    by destruct (run net (scan_coins py rest acc) (tick w)).
  - intros net' w' acc' Hnin'.
    unfold scan_coin. rewrite Hid. cbn. rewrite Hx. cbn.
    rewrite bool_decide_eq_false_2 by exact Hnin'. cbn. eauto.
Qed.

Lemma absent_detail_skipped_and_still_eligible_witness :
  run (provider_without_details [summary "foo"; summary "bar"])
      (scan_coin ascii_builtins (summary "foo") []) fresh
    = Outcome (Val []) (tick fresh)
        [EGet (CoinDetail (JStr (lit "foo"))) (Response 503 None)] /\
  sent_projects
    (final (run (provider_without_details [summary "foo"; summary "bar"])
                (scan_coin ascii_builtins (summary "foo") []) fresh))
    = sent_projects fresh /\
  run (provider_without_details [summary "foo"; summary "bar"])
      (scan_coins ascii_builtins [summary "foo"; summary "bar"] []) fresh
    = after (EGet (CoinDetail (JStr (lit "foo"))) (Response 503 None))
        (run (provider_without_details [summary "foo"; summary "bar"])
             (scan_coins ascii_builtins [summary "bar"] []) (tick fresh)) /\
  (forall net' w' acc',
      KStr (lit "foo") ∉ sent_projects w' ->
      exists tr,
        events (run net' (scan_coin ascii_builtins (summary "foo") acc') w')
        = EGet (CoinDetail (JStr (lit "foo")))
               (net' (clock w') (CoinDetail (JStr (lit "foo")))) :: tr).
Proof.
  apply (absent_detail_skipped_and_still_eligible ascii_builtins
           (provider_without_details [summary "foo"; summary "bar"])
           (summary "foo") [summary "bar"] [] fresh
           (JStr (lit "foo")) (KStr (lit "foo"))).
  - vm_compute. reflexivity.
  - apply not_elem_of_empty.
  - vm_compute. reflexivity.
Defined.

(** C6. When the listing request fails (an exception, or a status other
    than 200) [get_new_coins] returns the empty list after that single
    request, raising nothing; the scan then returns no match and requests
    no detail. *)
Theorem failed_listing_gives_empty_scan py net w :
  listing_failed (net (clock w) CoinsList) ->
  run net get_new_coins w
    = Outcome (Val (JList [])) (tick w)
        [EGet CoinsList (net (clock w) CoinsList)] /\
  run net (scan_for_projects py) w
    = Outcome (Val []) (tick w) [EGet CoinsList (net (clock w) CoinsList)] /\
  detail_fetches (events (run net (scan_for_projects py) w)) = 0%nat.
Proof.
  intros Hfailed. apply failed_listing_is_empty in Hfailed.
  split_and!.
  - cbn. by rewrite Hfailed.
  - by apply scan_of_empty_listing.
  - by rewrite scan_of_empty_listing.
Qed.

Lemma failed_listing_gives_empty_scan_witness :
  (run unreachable get_new_coins fresh
     = Outcome (Val (JList [])) (tick fresh) [EGet CoinsList TransportError] /\
   run unreachable (scan_for_projects ascii_builtins) fresh
     = Outcome (Val []) (tick fresh) [EGet CoinsList TransportError] /\
   detail_fetches (events (run unreachable (scan_for_projects ascii_builtins) fresh))
     = 0%nat) /\
  (run unauthorized get_new_coins fresh
     = Outcome (Val (JList [])) (tick fresh)
         [EGet CoinsList (Response 401 (Some (JDict [])))] /\
   run unauthorized (scan_for_projects ascii_builtins) fresh
     = Outcome (Val []) (tick fresh)
         [EGet CoinsList (Response 401 (Some (JDict [])))] /\
   detail_fetches (events (run unauthorized (scan_for_projects ascii_builtins) fresh))
     = 0%nat).
Proof.
  split.
  - apply (failed_listing_gives_empty_scan ascii_builtins unreachable fresh).
    exact I.
  - apply (failed_listing_gives_empty_scan ascii_builtins unauthorized fresh).
    cbn. lia.
Defined.

(** C7. Every record a scan returns carries the English description of
    the record fetched for it cut to its first 500 characters, so at most
    500 long; a description of 600 characters is stored as exactly its
    first 500. *)
Theorem description_cut_to_500 py net w p :
  p ∈ returned (run net (scan_for_projects py) w) ->
  exists coin_id r en,
    EGet (CoinDetail coin_id) r ∈ events (run net (scan_for_projects py) w) /\
    pi_id p = coin_id /\
    upstream_description (coin_details_of r) = Val en /\
    py_slice_to 500 en = Val (pi_description p) /\
    (exists n, py_len (pi_description p) = Val n /\ (n <= 500)%nat) /\
    (forall s, en = JStr s ->
               pi_description p = JStr (take 500 s) /\
               (length s = 600%nat -> length (take 500 s) = 500%nat)).
Proof.
  intros Hp. apply scan_provenance in Hp
    as (coin_id & r & links & metrics & Hin & _ & _ & Hinfo).
  apply project_info_fields in Hinfo as (Hid & _ & _ & _ & _ & Hdesc & _).
  apply res_bind_val in Hdesc as (en & Hen & Hcut).
  exists coin_id, r, en. split_and!; try assumption.
  - by eapply py_slice_to_len.
  - intros s ->. cbn in Hcut. injection Hcut as <-. split; [reflexivity|].
    intros Hlen. rewrite length_take. lia.
Qed.

Lemma description_cut_to_500_witness :
  exists info coin_id r en,
    returned (run (provider [summary "foo"] (detail (JInt 10) (JInt 5) long_description))
                  (scan_for_projects ascii_builtins) fresh) = [info] /\
    EGet (CoinDetail coin_id) r ∈
      events (run (provider [summary "foo"] (detail (JInt 10) (JInt 5) long_description))
                  (scan_for_projects ascii_builtins) fresh) /\
    pi_id info = coin_id /\
    upstream_description (coin_details_of r) = Val en /\
    py_slice_to 500 en = Val (pi_description info) /\
    (exists n, py_len (pi_description info) = Val n /\ (n <= 500)%nat) /\
    (forall s, en = JStr s ->
               pi_description info = JStr (take 500 s) /\
               (length s = 600%nat -> length (take 500 s) = 500%nat)).
Proof.
  assert (Hrun : exists info,
            returned (run (provider [summary "foo"]
                                    (detail (JInt 10) (JInt 5) long_description))
                          (scan_for_projects ascii_builtins) fresh) = [info]).
  { vm_compute. eexists. reflexivity. }
  destruct Hrun as [info Hrun]. exists info.
  destruct (description_cut_to_500 ascii_builtins
              (provider [summary "foo"] (detail (JInt 10) (JInt 5) long_description))
              fresh info) as (coin_id & r & en & H).
  - rewrite Hrun. left.
  - exists coin_id, r, en. split; [exact Hrun | exact H].
Defined.

(** C8. Of an upstream array [get_new_coins] keeps the last 100 entries
    (all of them when there are no more), the loop takes the first 20 of
    those, and a scan makes at most 20 detail requests, each for the
    identifier of one of these candidates. *)
Theorem listing_capped_at_100_scan_at_20 py net w l :
  new_coins_of (Response 200 (Some (JList l)))
    = JList (drop (length l - 100) l) /\
  (length (drop (length l - 100) l) <= 100)%nat /\
  candidates (Response 200 (Some (JList l)))
    = Val (take 20 (drop (length l - 100) l)) /\
  (detail_fetches (events (run net (scan_for_projects py) w)) <= 20)%nat /\
  (forall c r,
      EGet (CoinDetail c) r ∈ events (run net (scan_for_projects py) w) ->
      exists coins coin,
        candidates (net (clock w) CoinsList) = Val coins /\
        (length coins <= 20)%nat /\
        coin ∈ coins /\ py_get coin (lit "id") JNull = Val c).
Proof.
  assert (Hnew : new_coins_of (Response 200 (Some (JList l)))
                 = JList (drop (length l - 100) l)).
  { cbn. destruct (decide (100 < length l)%nat) as [Hlong|Hshort]; [reflexivity|].
    replace (length l - 100)%nat with 0%nat by lia. reflexivity. }
  assert (Hcap : forall r coins, candidates r = Val coins -> (length coins <= 20)%nat).
  { intros r coins. unfold candidates, candidates_per_scan.
    destruct (new_coins_of r) as [| | |s|l'|d]; cbn; try discriminate;
      intros [= <-]; rewrite ?length_map, length_take; lia. }
  split_and!.
  - exact Hnew.
  - rewrite length_drop. lia.
  - unfold candidates. rewrite Hnew. reflexivity.
  - rewrite run_scan_for_projects. cbn zeta.
    destruct (candidates (net (clock w) CoinsList)) as [coins|e] eqn:Hc.
    + destruct (scan_coins_requests py net coins [] (tick w)) as [Hn _].
      specialize (Hcap _ _ Hc). cbn. unfold detail_fetches in *. cbn. lia.
    + cbn. lia.
  - intros c r. rewrite run_scan_for_projects. cbn zeta.
    destruct (candidates (net (clock w) CoinsList)) as [coins|e] eqn:Hc; cbn.
    + intros Hin. apply elem_of_cons in Hin as [Heq|Hin]; [discriminate|].
      destruct (scan_coins_requests py net coins [] (tick w)) as [_ Hfor].
      destruct (Hfor c r Hin) as (coin & Hcoin & Hid).
      exists coins, coin. eauto.
    + intros Hin. apply elem_of_cons in Hin as [Heq|Hin]; [discriminate|].
      by apply elem_of_nil in Hin.
Qed.

Lemma listing_capped_at_100_scan_at_20_witness :
  new_coins_of (Response 200 (Some (JList listing25)))
    = JList (drop (length listing25 - 100) listing25) /\
  (length (drop (length listing25 - 100) listing25) <= 100)%nat /\
  candidates (Response 200 (Some (JList listing25)))
    = Val (take 20 (drop (length listing25 - 100) listing25)) /\
  (detail_fetches
     (events (run (provider listing25 (detail (JInt 500) (JInt 5) (lit "A token")))
                  (scan_for_projects ascii_builtins) fresh)) <= 20)%nat /\
  (forall c r,
      EGet (CoinDetail c) r ∈
        events (run (provider listing25 (detail (JInt 500) (JInt 5) (lit "A token")))
                    (scan_for_projects ascii_builtins) fresh) ->
      exists coins coin,
        candidates (provider listing25 (detail (JInt 500) (JInt 5) (lit "A token"))
                      (clock fresh) CoinsList) = Val coins /\
        (length coins <= 20)%nat /\
        coin ∈ coins /\ py_get coin (lit "id") JNull = Val c).
Proof.
  exact (listing_capped_at_100_scan_at_20 ascii_builtins
           (provider listing25 (detail (JInt 500) (JInt 5) (lit "A token")))
           fresh listing25).
Defined.

(** A listing of 25 entries, none sent before: the first 20 are looked
    up, the last 5 are not. *)
Example twenty_of_twenty_five :
  candidates (Response 200 (Some (JList listing25))) = Val (take 20 listing25) /\
  detail_fetches
    (events (run (provider listing25 (detail (JInt 500) (JInt 5) (lit "A token")))
                 (scan_for_projects ascii_builtins) fresh)) = 20%nat.
Proof. split; vm_compute; reflexivity. Qed.

(** C9. [/stats] answers with the number of distinct identifiers added
    to [sent_projects] since the start of the process: the text
    [stats_command] sends carries that number after ['Projects sent: '].
    After any number of scans run one after the other the store holds
    exactly the identifiers of the candidates that matched, each of them
    once, so the number is the number of matches: 2 when two candidates
    matched, however many scans there were.  When scans overlap on the
    event loop the number is still that of the distinct identifiers that
    matched. *)
Theorem stats_counts_the_matches py net telegram n schedule m w chat :
  sent_projects w = ∅ ->
  (forall k o, telegram k o = true) ->
  let text := fun count : nat =>
    bar_chart ++ lit " *Bot Statistics*" ++ nl ++ nl ++
    lit "Projects sent: " ++ py_str py (JInt (Z.of_nat count)) ++ nl ++
    lit "Status: Active " ++ check_mark ++ nl ++
    lit "Scan interval: Every hour" ++ nl in
  let matches := added (all_events (run_scans py net n w)) in
  let overlapping :=
    interleave net schedule (replicate m (scan_for_projects py)) w in
  NoDup matches /\
  sent_projects (world_after w (run_scans py net n w)) = list_to_set matches /\
  h_sent (stats_command py telegram
            (BotWorld (world_after w (run_scans py net n w)) chat))
    = [ReplyText (text (length matches)) true] /\
  (length matches = 2%nat ->
   h_sent (stats_command py telegram
             (BotWorld (world_after w (run_scans py net n w)) chat))
     = [ReplyText (text 2%nat) true]) /\
  sent_projects (shared overlapping) = list_to_set (added (log overlapping)) /\
  h_sent (stats_command py telegram (BotWorld (shared overlapping) chat))
    = [ReplyText
         (text (size (list_to_set (added (log overlapping)) : gset key))) true] /\
  (NoDup (added (log overlapping)) ->
   h_sent (stats_command py telegram (BotWorld (shared overlapping) chat))
     = [ReplyText (text (length (added (log overlapping)))) true]).
Proof.
  intros Hempty Hdelivers text matches overlapping.
  assert (Hreply : forall w',
            h_sent (stats_command py telegram (BotWorld w' chat))
            = [ReplyText (text (size (sent_projects w'))) true]).
  { intros w'. unfold stats_command, mbind, handler_bind, get_sent, call. cbn.
    by rewrite Hdelivers. }
  destruct (run_scans_sound py net n w) as (Hsent & _ & Hnodup & _).
  fold matches in Hsent, Hnodup. rewrite Hempty in Hsent.
  assert (Hset : sent_projects (world_after w (run_scans py net n w))
                 = list_to_set matches).
  { rewrite Hsent. set_solver. }
  assert (Hcount : size (sent_projects (world_after w (run_scans py net n w)))
                   = length matches).
  { rewrite Hset. by apply size_list_to_set. }
  assert (Hloop : sent_projects (shared overlapping)
                  = list_to_set (added (log overlapping))).
  { unfold overlapping. rewrite interleave_sent, Hempty. set_solver. }
  split_and!.
  - exact Hnodup.
  - exact Hset.
  - by rewrite Hreply, Hcount.
  - intros Htwo. by rewrite Hreply, Hcount, Htwo.
  - exact Hloop.
  - by rewrite Hreply, Hloop.
  - intros Hnodup'. rewrite Hreply, Hloop. by rewrite size_list_to_set.
Qed.

Lemma stats_counts_the_matches_witness :
  sent_projects
    (world_after fresh
       (run_scans ascii_builtins
          (provider [summary "foo"; summary "bar"]
                    (detail (JInt 10) (JInt 5) (lit "A token"))) 3 fresh))
    = list_to_set [KStr (lit "foo"); KStr (lit "bar")] /\
  h_sent (stats_command ascii_builtins delivering
            (BotWorld
               (world_after fresh
                  (run_scans ascii_builtins
                     (provider [summary "foo"; summary "bar"]
                               (detail (JInt 10) (JInt 5) (lit "A token"))) 3 fresh))
               None))
    = [ReplyText
         (bar_chart ++ lit " *Bot Statistics*" ++ nl ++ nl ++
          lit "Projects sent: 2" ++ nl ++
          lit "Status: Active " ++ check_mark ++ nl ++
          lit "Scan interval: Every hour" ++ nl) true].
Proof.
  destruct (stats_counts_the_matches ascii_builtins
              (provider [summary "foo"; summary "bar"]
                        (detail (JInt 10) (JInt 5) (lit "A token")))
              delivering 3 [] 0 fresh None eq_refl (fun _ _ => eq_refl))
    as (_ & Hsent & _ & Htwo & _).
  split.
  - exact Hsent.
  - rewrite Htwo by (vm_compute; reflexivity). vm_compute. reflexivity.
Defined.

(** C10, as the code has it.  Over scans that run one after the other,
    each to its end before the next starts, no identifier is returned
    twice, whatever the listings repeat: a returned identifier was not in
    [sent_projects] before, is in it afterwards, and the store only
    grows. *)
Theorem successive_scans_return_each_identifier_once py net n w :
  NoDup (map project_key (all_returned (run_scans py net n w))) /\
  (forall p,
      p ∈ all_returned (run_scans py net n w) ->
      exists x, project_key p = Val x /\
                (x ∉ sent_projects w) /\
                (x ∈ sent_projects (world_after w (run_scans py net n w)))) /\
  sent_projects w ⊆ sent_projects (world_after w (run_scans py net n w)).
Proof.
  destruct (run_scans_sound py net n w) as (Hsent & Hfresh & Hnodup & Hsub).
  split_and!.
  - eapply sublist_NoDup; [|exact Hsub]. apply (NoDup_fmap_2 Val). exact Hnodup.
  - intros p Hp. apply (list_elem_of_fmap_2 project_key) in Hp.
    apply (elem_of_sublist _ _ _ Hp) in Hsub.
    apply list_elem_of_fmap in Hsub as (x & Hkey & Hx).
    exists x. split_and!; [exact Hkey| |].
    + rewrite Forall_forall in Hfresh. by apply Hfresh.
    + rewrite Hsent. apply elem_of_union_l. by apply elem_of_list_to_set.
  - rewrite Hsent. set_solver.
Qed.

Lemma successive_scans_return_each_identifier_once_witness :
  map pi_id
      (all_returned
         (run_scans ascii_builtins
            (provider [summary "foo"; summary "foo"; summary "bar"]
                      (detail (JInt 10) (JInt 5) (lit "A token"))) 2 fresh))
    = [JStr (lit "foo"); JStr (lit "bar")] /\
  NoDup (map project_key
           (all_returned
              (run_scans ascii_builtins
                 (provider [summary "foo"; summary "foo"; summary "bar"]
                           (detail (JInt 10) (JInt 5) (lit "A token"))) 2 fresh))).
Proof.
  split.
  - vm_compute. reflexivity.
  - apply (successive_scans_return_each_identifier_once ascii_builtins
             (provider [summary "foo"; summary "foo"; summary "bar"]
                       (detail (JInt 10) (JInt 5) (lit "A token"))) 2 fresh).
Defined.

(** C10, as the claim states it, fails: the hourly job and a [/scan]
    command that overlap both find ["foo"] absent from [sent_projects],
    both request its detail, and both return it. *)
Lemma overlapping_scans_return_an_identifier_twice :
  map (fun t => map pi_id (handed t))
      (pool (interleave
               (provider [summary "foo"] (detail (JInt 10) (JInt 5) (lit "A token")))
               [0; 1; 0; 1; 0; 1]%nat
               [scan_for_projects ascii_builtins; scan_for_projects ascii_builtins]
               fresh))
    = [[JStr (lit "foo")]; [JStr (lit "foo")]] /\
  fetched
    (log (interleave
            (provider [summary "foo"] (detail (JInt 10) (JInt 5) (lit "A token")))
            [0; 1; 0; 1; 0; 1]%nat
            [scan_for_projects ascii_builtins; scan_for_projects ascii_builtins]
            fresh))
    = [Val (KStr (lit "foo")); Val (KStr (lit "foo"))] /\
  ~ NoDup
      (map project_key
         (concat
            (map handed
               (pool (interleave
                        (provider [summary "foo"]
                                  (detail (JInt 10) (JInt 5) (lit "A token")))
                        [0; 1; 0; 1; 0; 1]%nat
                        [scan_for_projects ascii_builtins;
                         scan_for_projects ascii_builtins]
                        fresh))))).
Proof.
  split_and!; [vm_compute; reflexivity .. |].
  assert (Hkeys :
    map project_key
      (concat
         (map handed
            (pool (interleave
                     (provider [summary "foo"]
                               (detail (JInt 10) (JInt 5) (lit "A token")))
                     [0; 1; 0; 1; 0; 1]%nat
                     [scan_for_projects ascii_builtins;
                      scan_for_projects ascii_builtins]
                     fresh))))
    = [Val (KStr (lit "foo")); Val (KStr (lit "foo"))]).
  { vm_compute. reflexivity. }
  rewrite Hkeys. intros Hnodup. apply NoDup_cons in Hnodup as [Hnotin _].
  apply Hnotin. left.
Qed.

(** * Further properties of the scanner *)

Lemma py_or_not_null v : py_or v (JInt 0) <> JNull.
Proof.
  unfold py_or. destruct (truthy v) eqn:Hv; [|discriminate].
  intros ->. discriminate.
Qed.

Lemma matches_criteria_true tw tg :
  matches_criteria tw tg = Val true ->
  py_lt_int tw 200 = Val true /\ py_lt_int tg 50 = Val true.
Proof.
  unfold matches_criteria. intros H.
  apply res_bind_val in H as ([|] & Hlow & H); [tauto | discriminate].
Qed.

(** X1. Every record a scan returns passed the criteria: its two
    counts, as stored in the record, are below 200 and below 50, and
    neither of them is [None]. *)
Theorem returned_records_meet_criteria py net w p :
  p ∈ returned (run net (scan_for_projects py) w) ->
  matches_criteria (pi_twitter_followers p) (pi_telegram_users p) = Val true /\
  (forall tw, pi_twitter_followers p = JInt tw -> tw < 200) /\
  (forall tg, pi_telegram_users p = JInt tg -> tg < 50) /\
  pi_twitter_followers p <> JNull /\
  pi_telegram_users p <> JNull.
Proof.
  intros Hp. apply scan_provenance in Hp
    as (coin_id & r & links & metrics & _ & _ & Hex & Hinfo).
  apply examine_inv in Hex as (community_data & _ & _ & Hmetrics & Hok).
  apply project_info_fields in Hinfo as (_ & -> & -> & _).
  apply social_metrics_inv in Hmetrics as (tw & tg & _ & _ & ->).
  cbn [fst snd] in *.
  destruct (matches_criteria_true _ _ Hok) as [Htw Htg].
  split_and!.
  - exact Hok.
  - intros z Hz. rewrite Hz in Htw. cbn in Htw. injection Htw as Htw. lia.
  - intros z Hz. rewrite Hz in Htg. cbn in Htg. injection Htg as Htg. lia.
  - apply py_or_not_null.
  - apply py_or_not_null.
Qed.

Lemma returned_records_meet_criteria_witness :
  matches_criteria (pi_twitter_followers bare_record) (pi_telegram_users bare_record)
    = Val true /\
  (forall tw, pi_twitter_followers bare_record = JInt tw -> tw < 200) /\
  (forall tg, pi_telegram_users bare_record = JInt tg -> tg < 50) /\
  pi_twitter_followers bare_record <> JNull /\
  pi_telegram_users bare_record <> JNull.
Proof.
  apply (returned_records_meet_criteria ascii_builtins
           (provider [summary "foo"] bare_detail) fresh bare_record).
  vm_compute. left.
Defined.

Lemma turn_appends py net coin acc w o acc' :
  turn py net coin acc w o -> result o = Val acc' ->
  acc' = acc \/
  exists info, acc' = acc ++ [info] /\
               py_get coin (lit "id") JNull = Val (pi_id info).
Proof.
  intros [e He|coin_id x Hk Hin|coin_id x r Hk Hnin Hr Hf
    |coin_id x r e Hk Hnin Hr Ht He|coin_id x r links metrics Hk Hnin Hr Ht He
    |coin_id x r links metrics e Hk Hnin Hr Ht He Hp
    |coin_id x r links metrics info Hk Hnin Hr Ht He Hp]; cbn;
    intros Hres; try discriminate; injection Hres as <-; try by left.
  right. exists info. split; [reflexivity|].
  apply project_info_fields in Hp as (-> & _).
  by apply coin_key_inv in Hk as [-> _].
Qed.

Lemma scan_coins_in_order py net coins acc w acc' :
  result (run net (scan_coins py coins acc) w) = Val acc' ->
  exists new,
    acc' = acc ++ new /\
    map (fun p => Val (pi_id p)) new
      `sublist_of` map (fun coin => py_get coin (lit "id") JNull) coins.
Proof.
  revert coins acc w acc'.
  apply (scan_coins_turns py net (fun coins acc _ o =>
    forall acc', result o = Val acc' ->
      exists new,
        acc' = acc ++ new /\
        map (fun p => Val (pi_id p)) new
          `sublist_of` map (fun coin => py_get coin (lit "id") JNull) coins)).
  - intros acc w acc' [= <-]. exists []. split; [by rewrite app_nil_r | constructor].
  - intros coin rest acc w o e _ _ acc'. discriminate.
  - intros coin rest acc w o acc1 o' Hturn Hres IH acc' Hres'. cbn in Hres'.
    destruct (IH acc' Hres') as (new & -> & Hsub).
    destruct (turn_appends _ _ _ _ _ _ _ Hturn Hres) as [->|(info & -> & Hid)].
    + exists new. split; [reflexivity|]. cbn. by apply sublist_cons.
    + exists (info :: new). split; [by rewrite <- app_assoc|].
      cbn. rewrite Hid. by apply sublist_skip.
Qed.

(** X2. A scan returns its records in the order of the listing: the
    identifiers returned are, in order, identifiers of candidates, each
    candidate giving at most one record. *)
Theorem returned_in_listing_order py net w coins :
  candidates (net (clock w) CoinsList) = Val coins ->
  map (fun p => Val (pi_id p)) (returned (run net (scan_for_projects py) w))
    `sublist_of` map (fun coin => py_get coin (lit "id") JNull) coins.
Proof.
  intros Hc. unfold returned. rewrite run_scan_for_projects. cbn zeta.
  rewrite Hc. cbn.
  destruct (result (run net (scan_coins py coins []) (tick w))) as [acc'|e] eqn:Hres;
    [|apply sublist_nil_l].
  destruct (scan_coins_in_order _ _ _ _ _ _ Hres) as (new & -> & Hsub). exact Hsub.
Qed.

Lemma returned_in_listing_order_witness :
  map (fun p => Val (pi_id p))
      (returned (run (provider_by_id [summary "foo"; summary "baz"; summary "qux"]
                                     good_but_bar)
                     (scan_for_projects ascii_builtins) foo_sent))
    `sublist_of` map (fun coin => py_get coin (lit "id") JNull)
                     [summary "foo"; summary "baz"; summary "qux"].
Proof.
  apply (returned_in_listing_order ascii_builtins
           (provider_by_id [summary "foo"; summary "baz"; summary "qux"] good_but_bar)
           foo_sent).
  vm_compute. reflexivity.
Defined.

Lemma candidates_length r coins :
  candidates r = Val coins -> (length coins <= 20)%nat.
Proof.
  unfold candidates, candidates_per_scan.
  destruct (new_coins_of r) as [| | |s|l|d]; cbn; try discriminate;
    intros [= <-]; rewrite ?length_map, length_take; lia.
Qed.

Lemma paced_nil : paced [].
Proof. split; [reflexivity | constructor]. Qed.

Lemma paced_app tr tr' : paced tr -> paced tr' -> paced (tr ++ tr').
Proof.
  intros [Hn Hd] [Hn' Hd']. split.
  - rewrite pacing_delays_app, detail_fetches_app. lia.
  - by apply Forall_app.
Qed.

Lemma turn_paced py net coin acc w o : turn py net coin acc w o -> paced (events o).
Proof.
  intros [e He|coin_id x Hk Hin|coin_id x r Hk Hnin Hr Hf
    |coin_id x r e Hk Hnin Hr Ht He|coin_id x r links metrics Hk Hnin Hr Ht He
    |coin_id x r links metrics e Hk Hnin Hr Ht He Hp
    |coin_id x r links metrics info Hk Hnin Hr Ht He Hp]; cbn [events];
    (split; [vm_compute; lia |]); repeat constructor;
    intros d Hd; first [discriminate Hd | by injection Hd as <-].
Qed.

Lemma scan_coins_paced py net coins acc w :
  paced (events (run net (scan_coins py coins acc) w)).
Proof.
  revert coins acc w.
  apply (scan_coins_turns py net (fun _ _ _ o => paced (events o))).
  - intros. apply paced_nil.
  - intros coin rest acc w o e Hturn _. cbn. by eapply turn_paced.
  - intros coin rest acc w o acc' o' Hturn _ IH. cbn.
    apply paced_app; [by eapply turn_paced | exact IH].
Qed.

Lemma total_sleep_paced tr :
  Forall (fun e => forall d, e = ESleep d -> d = pacing_delay) tr ->
  (total_sleep tr == inject_Z (Z.of_nat (pacing_delays tr)) * pacing_delay)%Q.
Proof.
  induction 1 as [|e tr He _ IH]; [reflexivity|].
  destruct e as [u r|d|x]; cbn [total_sleep]; try exact IH.
  rewrite (He d eq_refl), IH.
  change (pacing_delays (ESleep pacing_delay :: tr)) with (S (pacing_delays tr)).
  rewrite Nat2Z.inj_succ. unfold Z.succ. rewrite inject_Z_plus. ring.
Qed.

(** X3. Whatever the provider answers, a scan makes at most 20 detail
    requests, sleeps at most once per detail request and always for
    1.5, so it spends at most 30 asleep. *)
Theorem scan_sleeps_at_most_30 py net w :
  (pacing_delays (events (run net (scan_for_projects py) w))
   <= detail_fetches (events (run net (scan_for_projects py) w)))%nat /\
  (detail_fetches (events (run net (scan_for_projects py) w)) <= 20)%nat /\
  Forall (fun e => forall d, e = ESleep d -> d = pacing_delay)
         (events (run net (scan_for_projects py) w)) /\
  (total_sleep (events (run net (scan_for_projects py) w)) <= 30)%Q.
Proof.
  assert (Hpaced : paced (events (run net (scan_for_projects py) w))).
  { rewrite run_scan_for_projects. cbn zeta.
    destruct (candidates (net (clock w) CoinsList)) as [coins|e]; cbn [events after].
    - apply (paced_app [_]); [|apply scan_coins_paced].
      split; [vm_compute; lia | repeat constructor; discriminate].
    - split; [vm_compute; lia | repeat constructor; discriminate]. }
  assert (Hfetches :
    (detail_fetches (events (run net (scan_for_projects py) w)) <= 20)%nat).
  { rewrite run_scan_for_projects. cbn zeta.
    destruct (candidates (net (clock w) CoinsList)) as [coins|e] eqn:Hc;
      cbn [events after].
    - destruct (scan_coins_requests py net coins [] (tick w)) as [Hn _].
      apply candidates_length in Hc.
      change (detail_fetches (EGet CoinsList (net (clock w) CoinsList)
                :: events (run net (scan_coins py coins []) (tick w))))
        with (detail_fetches (events (run net (scan_coins py coins []) (tick w)))).
      lia.
    - vm_compute. lia. }
  destruct Hpaced as [Hle Hall]. split_and!; try assumption.
  rewrite (total_sleep_paced _ Hall).
  assert (Hz : (Z.of_nat (pacing_delays (events (run net (scan_for_projects py) w)))
                <= 20)%Z) by lia.
  apply (Qle_trans _ (inject_Z 20 * pacing_delay)); [|vm_compute; discriminate].
  apply Qmult_le_compat_r; [|vm_compute; discriminate].
  rewrite <- Zle_Qle. exact Hz.
Qed.

Lemma scan_coins_all_absent py net coins acc w :
  (forall n c, truthy (coin_details_of (net n (CoinDetail c))) = false) ->
  Forall (fun coin => exists ck, coin_key coin = Val ck) coins ->
  result (run net (scan_coins py coins acc) w) = Val acc /\
  sent_projects (final (run net (scan_coins py coins acc) w)) = sent_projects w /\
  pacing_delays (events (run net (scan_coins py coins acc) w)) = 0%nat /\
  detail_fetches (events (run net (scan_coins py coins acc) w))
    = length (List.filter (unseen w) coins).
Proof.
  intros Hdown Hkeys. revert w.
  induction Hkeys as [|coin rest [[coin_id x] Hk] _ IH]; intros w.
  - repeat split.
  - rewrite run_scan_coins_cons. cbn zeta.
    pose proof Hk as Hk'. apply coin_key_inv in Hk' as [Hid Hx].
    destruct (decide (x ∈ sent_projects w)) as [Hin|Hnin].
    + (* already sent *)
      assert (Hturn : run net (scan_coin py coin acc) w = Outcome (Val acc) w []).
      { unfold scan_coin. rewrite Hid. cbn. rewrite Hx. cbn.
        by rewrite bool_decide_eq_true_2. }
      rewrite Hturn. cbn [result final events]. rewrite prefixed_nil.
      destruct (IH w) as (Hres & Hsent & Hsleep & Hfetch).
      split_and!; try assumption.
      rewrite Hfetch. cbn [List.filter]. unfold unseen at 2. rewrite Hk.
      by rewrite bool_decide_eq_false_2 by tauto.
    + (* nothing fetched *)
      assert (Hturn : run net (scan_coin py coin acc) w
                = Outcome (Val acc) (tick w)
                    [EGet (CoinDetail coin_id) (net (clock w) (CoinDetail coin_id))]).
      { unfold scan_coin. rewrite Hid. cbn. rewrite Hx. cbn.
        rewrite bool_decide_eq_false_2 by exact Hnin. cbn. by rewrite Hdown. }
      rewrite Hturn. cbn [result final events prefixed].
      destruct (IH (tick w)) as (Hres & Hsent & Hsleep & Hfetch).
      split_and!; try assumption.
      cbn [List.filter]. unfold unseen at 1. rewrite Hk.
      rewrite bool_decide_eq_true_2 by exact Hnin.
      change (S (detail_fetches (events (run net (scan_coins py rest acc) (tick w))))
              = S (length (List.filter (unseen w) rest))).
      rewrite Hfetch. reflexivity.
Qed.

(** X4. While the detail endpoint gives nothing, a scan of well-formed
    candidates returns no record and leaves [sent_projects] as it was,
    and it requests the detail of every candidate that is not already
    sent, one request after the other without any delay. *)
Theorem scan_with_detail_endpoint_down py net w coins :
  (forall n c, truthy (coin_details_of (net n (CoinDetail c))) = false) ->
  candidates (net (clock w) CoinsList) = Val coins ->
  Forall (fun coin => exists ck, coin_key coin = Val ck) coins ->
  result (run net (scan_for_projects py) w) = Val [] /\
  sent_projects (final (run net (scan_for_projects py) w)) = sent_projects w /\
  pacing_delays (events (run net (scan_for_projects py) w)) = 0%nat /\
  detail_fetches (events (run net (scan_for_projects py) w))
    = length (List.filter (unseen w) coins).
Proof.
  intros Hdown Hc Hkeys. rewrite run_scan_for_projects. cbn zeta. rewrite Hc.
  destruct (scan_coins_all_absent py net coins [] (tick w) Hdown Hkeys)
    as (Hres & Hsent & Hsleep & Hfetch).
  split_and!; assumption.
Qed.

Lemma scan_with_detail_endpoint_down_witness :
  result (run (provider_without_details [summary "foo"; summary "bar"; summary "bar"])
              (scan_for_projects ascii_builtins) foo_sent) = Val [] /\
  sent_projects
    (final (run (provider_without_details [summary "foo"; summary "bar"; summary "bar"])
                (scan_for_projects ascii_builtins) foo_sent))
    = sent_projects foo_sent /\
  pacing_delays
    (events (run (provider_without_details [summary "foo"; summary "bar"; summary "bar"])
                 (scan_for_projects ascii_builtins) foo_sent)) = 0%nat /\
  detail_fetches
    (events (run (provider_without_details [summary "foo"; summary "bar"; summary "bar"])
                 (scan_for_projects ascii_builtins) foo_sent))
    = length (List.filter (unseen foo_sent)
                [summary "foo"; summary "bar"; summary "bar"]).
Proof.
  apply (scan_with_detail_endpoint_down ascii_builtins
           (provider_without_details [summary "foo"; summary "bar"; summary "bar"])
           foo_sent [summary "foo"; summary "bar"; summary "bar"]).
  - intros n c. reflexivity.
  - vm_compute. reflexivity.
  - repeat constructor; eexists; vm_compute; reflexivity.
Defined.

Section Lost_matches.

Variable py : builtins.
Variable net : network.

Lemma run_scans_accounted n w :
  map project_key (all_returned (run_scans py net n w))
  ++ map Val (lost (run_scans py net n w))
  ≡ₚ map Val (added (all_events (run_scans py net n w))).
Proof.
  revert w. induction n as [|n IH]; intros w; [reflexivity|].
  cbn [run_scans all_events all_returned lost map concat].
  set (o := run net (scan_for_projects py) w).
  fold (all_events (run_scans py net n (final o))).
  fold (all_returned (run_scans py net n (final o))).
  fold (lost (run_scans py net n (final o))).
  specialize (IH (final o)).
  rewrite added_app, !map_app, <- IH.
  destruct (scan_sound py net w) as [_ _ _ _ Hemitted]. fold o in Hemitted.
  unfold returned. destruct (result o) as [acc'|e].
  - destruct (Hemitted acc' eq_refl) as (new & -> & Hkeys). cbn.
    rewrite Hkeys. by rewrite <- app_assoc.
  - cbn. rewrite !app_assoc. apply Permutation_app_tail, Permutation_app_comm.
Qed.

End Lost_matches.

(** X5. A match of a scan that goes on to raise is lost: its identifier
    stays in [sent_projects] although the scan returned nothing, and no
    scan after it returns the identifier either. *)
Theorem match_of_raising_scan_is_lost py net n w x :
  x ∈ lost (run_scans py net n w) ->
  (Val x ∉ map project_key (all_returned (run_scans py net n w))) /\
  (x ∈ sent_projects (world_after w (run_scans py net n w))) /\
  (x ∉ sent_projects w).
Proof.
  intros Hlost.
  destruct (run_scans_sound py net n w) as (Hsent & Hfresh & Hnodup & _).
  pose proof (run_scans_accounted py net n w) as Hperm.
  assert (Hadded : x ∈ added (all_events (run_scans py net n w))).
  { apply (list_elem_of_fmap_inj_2 Val).
    change (Val x ∈ map Val (added (all_events (run_scans py net n w)))).
    rewrite <- Hperm. apply elem_of_app. right. by apply list_elem_of_fmap_2. }
  split_and!.
  - assert (Hnd : NoDup (map project_key (all_returned (run_scans py net n w))
                         ++ map Val (lost (run_scans py net n w)))).
    { rewrite Hperm. by apply (NoDup_fmap_2 Val). }
    apply NoDup_app in Hnd as (_ & Hdisjoint & _).
    intros Hreturned. apply (Hdisjoint _ Hreturned). by apply list_elem_of_fmap_2.
  - rewrite Hsent. apply elem_of_union_l. by apply elem_of_list_to_set.
  - rewrite Forall_forall in Hfresh. by apply Hfresh.
Qed.

Lemma match_of_raising_scan_is_lost_witness :
  map result
      (run_scans ascii_builtins
         (provider_by_id [summary "foo"; summary "bar"] good_but_bar) 2 fresh)
    = [Exc AttributeError; Exc AttributeError] /\
  (Val (KStr (lit "foo")) ∉
     map project_key
         (all_returned
            (run_scans ascii_builtins
               (provider_by_id [summary "foo"; summary "bar"] good_but_bar) 2 fresh))) /\
  (KStr (lit "foo") ∈
     sent_projects
       (world_after fresh
          (run_scans ascii_builtins
             (provider_by_id [summary "foo"; summary "bar"] good_but_bar) 2 fresh))) /\
  (KStr (lit "foo") ∉ sent_projects fresh).
Proof.
  split; [vm_compute; reflexivity|].
  apply (match_of_raising_scan_is_lost ascii_builtins
           (provider_by_id [summary "foo"; summary "bar"] good_but_bar) 2 fresh).
  vm_compute. left.
Defined.

(** X6. When the listing request is answered with status 200 and a body
    that is not an array, the scan requests no detail.  It returns
    nothing for [null], a boolean, a number, the empty string and an
    object of more than 100 members; it raises for an object of up to 100
    members (the slice [coins[:20]]) and for a non-empty string (whose
    characters have no [get]). *)
Theorem listing_body_not_an_array py net w body :
  net (clock w) CoinsList = Response 200 (Some body) ->
  match body with
  | JList _ => True
  | JNull | JBool _ | JInt _ | JStr [] =>
      run net (scan_for_projects py) w
      = Outcome (Val []) (tick w) [EGet CoinsList (Response 200 (Some body))]
  | JStr (_ :: _) =>
      run net (scan_for_projects py) w
      = Outcome (Exc AttributeError) (tick w)
          [EGet CoinsList (Response 200 (Some body))]
  | JDict d =>
      if decide (100 < length d)%nat
      then run net (scan_for_projects py) w
           = Outcome (Val []) (tick w) [EGet CoinsList (Response 200 (Some body))]
      else exists e,
             run net (scan_for_projects py) w
             = Outcome (Exc e) (tick w) [EGet CoinsList (Response 200 (Some body))]
  end.
Proof.
  intros Hr. rewrite run_scan_for_projects. cbn zeta. rewrite Hr.
  unfold candidates. destruct body as [|b|z|[|c s]|l|d]; try reflexivity; try exact I.
  - (* a non-empty string *)
    cbn [new_coins_of]. destruct (decide (200 = 200)) as [_|Hne]; [|done]. cbn [py_len].
    destruct (decide (100 < length (c :: s))%nat) as [Hlong|Hshort].
    + cbn [py_slice_last]. 
      destruct (drop (length (c :: s) - 100) (c :: s)) as [|c' s'] eqn:Hdrop.
      * apply (f_equal length) in Hdrop. rewrite length_drop in Hdrop.
        cbn [length] in *. lia.
      * reflexivity.
    + reflexivity.
  - (* an object *)
    cbn [new_coins_of]. destruct (decide (200 = 200)) as [_|Hne]; [|done]. cbn [py_len].
    destruct (decide (100 < length d)%nat); [reflexivity|].
    eexists. reflexivity.
Qed.

Lemma listing_body_not_an_array_witness :
  exists e,
    run (listing_body (JDict [(lit "error", JStr (lit "busy"))]))
        (scan_for_projects ascii_builtins) fresh
    = Outcome (Exc e) (tick fresh)
        [EGet CoinsList
           (Response 200 (Some (JDict [(lit "error", JStr (lit "busy"))])))].
Proof.
  exact (listing_body_not_an_array ascii_builtins
           (listing_body (JDict [(lit "error", JStr (lit "busy"))])) fresh
           (JDict [(lit "error", JStr (lit "busy"))]) eq_refl).
Defined.

(** * Properties of the handlers *)

(** ** [str.replace] *)

Lemma replace_from_skip old new k s :
  replace_from old new k s = replace_from old new 0 (drop k s).
Proof.
  revert k. induction s as [|c s IH]; intros [|k]; cbn [replace_from drop];
    try reflexivity.
  apply IH.
Qed.

Lemma starts_with_length p s : starts_with p s = true -> (length p <= length s)%nat.
Proof.
  revert s. induction p as [|a p IH]; intros [|b s]; cbn; try lia; try discriminate.
  destruct (decide (a = b)); [|discriminate]. intros H%IH. lia.
Qed.

Lemma starts_with_app p s : starts_with p (p ++ s) = true.
Proof. induction p as [|a p IH]; cbn; [reflexivity|]. by rewrite decide_True. Qed.

Lemma str_replace_match old new s :
  old <> [] -> starts_with old s = true ->
  str_replace old new s = new ++ str_replace old new (drop (length old) s).
Proof.
  intros Hold Hstarts. unfold str_replace.
  destruct s as [|c s].
  - apply starts_with_length in Hstarts. destruct old; [done | cbn in Hstarts; lia].
  - cbn [replace_from]. rewrite Hstarts, replace_from_skip.
    destruct old as [|a old]; [done|]. cbn [length drop].
    by replace (S (length old) - 1)%nat with (length old) by lia.
Qed.

Lemma str_replace_no_match old new c s :
  starts_with old (c :: s) = false ->
  str_replace old new (c :: s) = c :: str_replace old new s.
Proof. intros H. unfold str_replace. cbn [replace_from]. by rewrite H. Qed.

Lemma str_replace_absent old new s :
  str_contains old s = false -> str_replace old new s = s.
Proof.
  induction s as [|c s IH]; [reflexivity|].
  cbn [str_contains]. intros [Hhere Hlater]%orb_false_elim.
  rewrite str_replace_no_match by exact Hhere. by rewrite IH.
Qed.

Lemma str_remove_length old s :
  old <> [] ->
  (length (str_replace old [] s) <= length s)%nat /\
  (str_contains old s = true -> (length (str_replace old [] s) < length s)%nat).
Proof.
  intros Hold. remember (length s) as n eqn:Hn. revert s Hn.
  induction n as [n IH] using lt_wf_ind. intros s ->.
  destruct s as [|c s].
  - split; [reflexivity|]. cbn. destruct old; [done | discriminate].
  - destruct (starts_with old (c :: s)) eqn:Hstarts.
    + rewrite str_replace_match by assumption. cbn [app].
      pose proof (starts_with_length _ _ Hstarts) as Hlen.
      assert (Hpos : (0 < length old)%nat) by (destruct old; [done | cbn; lia]).
      destruct (IH (length (drop (length old) (c :: s)))
                   ltac:(rewrite length_drop; lia) _ eq_refl) as [Hle _].
      rewrite length_drop in Hle. split; [lia | intros _; lia].
    + rewrite str_replace_no_match by assumption.
      destruct (IH (length s) ltac:(cbn; lia) s eq_refl) as [Hle Hlt].
      cbn [length str_contains]. rewrite Hstarts. cbn [orb].
      split; [lia | intros H%Hlt; lia].
Qed.

(** Removing the prefix again gives [s] back exactly when [s] does not
    contain it. *)
Lemma str_remove_prefix_round_trip p s :
  p <> [] ->
  str_replace p [] (p ++ s) = s <-> str_contains p s = false.
Proof.
  intros Hp.
  rewrite (str_replace_match p [] (p ++ s) Hp (starts_with_app p s)).
  cbn [app]. rewrite drop_app_length. split.
  - intros Heq. destruct (str_contains p s) eqn:Hc; [|reflexivity].
    destruct (str_remove_length p s Hp) as [_ Hlt]. specialize (Hlt Hc).
    rewrite Heq in Hlt. lia.
  - apply str_replace_absent.
Qed.

(** ** The button under an alert *)

Lemma button_callback_events py format_f0 net telegram data b :
  telegram (clock (process b)) AnswerQuery = true ->
  h_events (button_callback py format_f0 net telegram data b)
  = [EGet (CoinDetail (JStr (project_id_of data)))
          (net (S (clock (process b))) (CoinDetail (JStr (project_id_of data))))].
Proof.
  intros Hanswer.
  unfold button_callback, mbind, handler_bind, call, await, computed, get_coin_details.
  cbn -[project_id_of format_full_details project_info_full]. rewrite Hanswer.
  cbn -[project_id_of format_full_details project_info_full].
  repeat case_match; reflexivity.
Qed.

(** X7. The button under the alert for a record leads back to the
    record exactly when its identifier does not contain ['details_']:
    [button_callback] removes every occurrence of that text from the
    button's data, not only the prefix [send_project_alert] put there,
    and requests the detail of what is left. *)
Theorem callback_round_trip py format_f0 net telegram p s b :
  py_str py (JStr s) = s ->
  pi_id p = JStr s ->
  telegram (clock (process b)) AnswerQuery = true ->
  (project_id_of (callback_data py p) = s
   <-> str_contains (lit "details_") s = false) /\
  h_events (button_callback py format_f0 net telegram (callback_data py p) b)
  = [EGet (CoinDetail (JStr (project_id_of (callback_data py p))))
          (net (S (clock (process b)))
               (CoinDetail (JStr (project_id_of (callback_data py p)))))].
Proof.
  intros Hstr Hid Hanswer. split.
  - unfold project_id_of, callback_data, fmt. rewrite Hid, Hstr.
    by apply str_remove_prefix_round_trip.
  - by apply button_callback_events.
Qed.

Lemma callback_round_trip_witness :
  (project_id_of (callback_data ascii_builtins bare_record) = lit "foo"
   <-> str_contains (lit "details_") (lit "foo") = false) /\
  h_events (button_callback ascii_builtins ascii_format_f0
              (provider [summary "foo"] bare_detail) delivering
              (callback_data ascii_builtins bare_record) booted)
  = [EGet (CoinDetail (JStr (project_id_of (callback_data ascii_builtins bare_record))))
          (provider [summary "foo"] bare_detail (S (clock (process booted)))
             (CoinDetail
                (JStr (project_id_of (callback_data ascii_builtins bare_record)))))].
Proof.
  apply (callback_round_trip ascii_builtins ascii_format_f0
           (provider [summary "foo"] bare_detail) delivering bare_record
           (lit "foo") booted); reflexivity.
Defined.

(** An identifier that contains the text is mangled on the way back. *)
Example mangled_identifier :
  project_id_of (lit "details_" ++ lit "my-details_coin") = lit "my-coin".
Proof. vm_compute. reflexivity. Qed.

(** X8. [button_callback] never changes [sent_projects] nor the
    recipient.  When the detail request gives nothing it makes that one
    request and replaces the alert by the apology. *)
Theorem button_callback_keeps_state py format_f0 net telegram data b :
  sent_projects (process (h_final (button_callback py format_f0 net telegram data b)))
    = sent_projects (process b) /\
  user_chat_id (h_final (button_callback py format_f0 net telegram data b))
    = user_chat_id b /\
  (telegram (clock (process b)) AnswerQuery = true ->
   truthy (coin_details_of
             (net (S (clock (process b))) (CoinDetail (JStr (project_id_of data)))))
     = false ->
   telegram (S (S (clock (process b))))
     (EditMessageText (lit "Sorry, couldn't fetch details for this project.") false)
     = true ->
   h_result (button_callback py format_f0 net telegram data b) = HVal tt /\
   h_sent (button_callback py format_f0 net telegram data b)
     = [AnswerQuery;
        EditMessageText (lit "Sorry, couldn't fetch details for this project.") false]).
Proof.
  unfold button_callback, mbind, handler_bind, call, await, computed, get_coin_details.
  split_and!.
  - cbn -[project_id_of format_full_details project_info_full].
    repeat case_match; reflexivity.
  - cbn -[project_id_of format_full_details project_info_full].
    repeat case_match; reflexivity.
  - intros Hanswer Habsent Hedit.
    cbn -[project_id_of format_full_details project_info_full].
    rewrite Hanswer.
    cbn -[project_id_of format_full_details project_info_full].
    rewrite Habsent.
    cbn -[project_id_of format_full_details project_info_full].
    rewrite Hedit. split; reflexivity.
Qed.

Lemma button_callback_keeps_state_witness :
  h_result (button_callback ascii_builtins ascii_format_f0
              (provider_without_details []) delivering (lit "details_foo") booted)
    = HVal tt /\
  h_sent (button_callback ascii_builtins ascii_format_f0
            (provider_without_details []) delivering (lit "details_foo") booted)
    = [AnswerQuery;
       EditMessageText (lit "Sorry, couldn't fetch details for this project.") false].
Proof.
  apply (button_callback_keeps_state ascii_builtins ascii_format_f0
           (provider_without_details []) delivering (lit "details_foo") booted);
    reflexivity.
Defined.

(** ** Alerts *)

Section Alerts.

Variable py : builtins.
Variable format_f0 : Z -> option pystr.
Variable net : network.
Variable telegram : nat -> outgoing -> bool.

Lemma send_alerts_unregistered projects b :
  registered (user_chat_id b) = false ->
  send_alerts py format_f0 telegram projects b = HOut (HVal tt) b [] [].
Proof.
  intros Hnone. induction projects as [|p projects IH]; [reflexivity|].
  assert (Hp : send_project_alert py format_f0 telegram p b = HOut (HVal tt) b [] []).
  { unfold send_project_alert, mbind, handler_bind, get_chat. cbn.
    destruct (user_chat_id b) as [c|]; [|reflexivity].
    cbn in Hnone. by destruct (c =? 0). }
  cbn [send_alerts]. unfold mbind, handler_bind. rewrite Hp. cbn [h_result h_final].
  rewrite IH. reflexivity.
Qed.

Lemma send_alerts_go_to projects b c :
  user_chat_id b = Some c ->
  Forall (goes_to c) (h_sent (send_alerts py format_f0 telegram projects b)) /\
  user_chat_id (h_final (send_alerts py format_f0 telegram projects b)) = Some c /\
  sent_projects (process (h_final (send_alerts py format_f0 telegram projects b)))
    = sent_projects (process b).
Proof.
  revert b. induction projects as [|p projects IH]; intros b Hchat.
  - cbn. repeat split; [constructor | assumption].
  - cbn [send_alerts]. unfold mbind, handler_bind.
    set (o := send_project_alert py format_f0 telegram p b).
    assert (Ho : Forall (goes_to c) (h_sent o) /\ user_chat_id (h_final o) = Some c
                 /\ sent_projects (process (h_final o)) = sent_projects (process b)).
    { unfold o, send_project_alert, mbind, handler_bind, get_chat, computed, call.
      cbn. rewrite Hchat. cbn.
      repeat case_match; cbn; repeat split; try assumption; repeat constructor. }
    destruct Ho as (Hsent & Hchat' & Hstore).
    destruct (h_result o); cbn.
    + destruct (IH (h_final o) Hchat') as (IHsent & IHchat & IHstore).
      split_and!; [by apply Forall_app | assumption | congruence].
    + tauto.
Qed.

Lemma send_alerts_delivered projects alerts b c :
  user_chat_id b = Some c -> c <> 0 ->
  (forall n o, telegram n o = true) ->
  Forall2 (fun p a => alert_for py format_f0 c p = HVal a) projects alerts ->
  h_result (send_alerts py format_f0 telegram projects b) = HVal tt /\
  h_sent (send_alerts py format_f0 telegram projects b) = alerts /\
  h_events (send_alerts py format_f0 telegram projects b) = [].
Proof.
  intros Hchat Hc Hdelivers Halerts. revert b Hchat.
  induction Halerts as [|p a projects alerts Ha _ IH]; intros b Hchat;
    [repeat split|].
  cbn [send_alerts]. unfold mbind, handler_bind.
  assert (Ho : send_project_alert py format_f0 telegram p b
               = HOut (HVal tt) (BotWorld (tick (process b)) (Some c)) [a] []).
  { unfold send_project_alert, mbind, handler_bind, get_chat, computed, call.
    cbn. rewrite Hchat. cbn. rewrite (proj2 (Z.eqb_neq c 0) Hc). cbn.
    unfold alert_for in Ha.
    destruct (format_quick_summary py format_f0 p) as [summary|e]; [|discriminate].
    cbn in Ha. injection Ha as <-. cbn. rewrite Hdelivers, Hchat. reflexivity. }
  rewrite Ho. cbn.
  destruct (IH (BotWorld (tick (process b)) (Some c)) eq_refl) as (-> & -> & ->).
  repeat split.
Qed.

Lemma seen_never_returned net' w x :
  x ∈ sent_projects w ->
  Val x ∉ map project_key (returned (run net' (scan_for_projects py) w)).
Proof.
  intros Hin. destruct (scan_sound py net' w) as [_ Hfresh _ _ Hemitted].
  unfold returned.
  destruct (result (run net' (scan_for_projects py) w)) as [acc'|e];
    [|by intros ?%elem_of_nil].
  destruct (Hemitted acc' eq_refl) as (new & -> & Hkeys). cbn.
  rewrite Hkeys. intros Hx. apply list_elem_of_fmap in Hx as (x' & Heq & Hx').
  injection Heq as <-. rewrite Forall_forall in Hfresh. by apply (Hfresh x).
Qed.

Lemma returned_is_sent w p :
  p ∈ returned (run net (scan_for_projects py) w) ->
  exists x, project_key p = Val x /\
            x ∈ sent_projects (final (run net (scan_for_projects py) w)).
Proof.
  destruct (scan_sound py net w) as [Hsent _ _ _ Hemitted].
  unfold returned.
  destruct (result (run net (scan_for_projects py) w)) as [acc'|e];
    [|by intros ?%elem_of_nil].
  destruct (Hemitted acc' eq_refl) as (new & -> & Hkeys). rewrite app_nil_l.
  intros Hp. apply (list_elem_of_fmap_2 project_key) in Hp.
  change (project_key p ∈ map project_key new) in Hp. rewrite Hkeys in Hp.
  apply list_elem_of_fmap in Hp as (x & Hkey & Hx).
  exists x. split; [exact Hkey|]. rewrite Hsent.
  apply elem_of_union_l. by apply elem_of_list_to_set.
Qed.

End Alerts.

(** X9. While nobody is registered, the hourly scan sends nothing, and
    what it found is lost all the same: every record it found is in
    [sent_projects] afterwards, so no later scan, whatever the provider
    lists then, returns it again. *)
Theorem matches_without_recipient_are_dropped
    py format_f0 net telegram b p :
  registered (user_chat_id b) = false ->
  p ∈ returned (run net (scan_for_projects py) (process b)) ->
  h_sent (scheduled_scan py format_f0 net telegram b) = [] /\
  process (h_final (scheduled_scan py format_f0 net telegram b))
    = final (run net (scan_for_projects py) (process b)) /\
  exists x,
    project_key p = Val x /\
    (x ∈ sent_projects
           (process (h_final (scheduled_scan py format_f0 net telegram b)))) /\
    forall net' w',
      sent_projects (process (h_final (scheduled_scan py format_f0 net telegram b)))
        ⊆ sent_projects w' ->
      Val x ∉ map project_key (returned (run net' (scan_for_projects py) w')).
Proof.
  intros Hnone Hp.
  assert (Hrun : h_sent (scheduled_scan py format_f0 net telegram b) = [] /\
                 process (h_final (scheduled_scan py format_f0 net telegram b))
                 = final (run net (scan_for_projects py) (process b))).
  { unfold scheduled_scan, mbind, handler_bind, await, get_chat.
    cbn -[run scan_for_projects].
    destruct (result (run net (scan_for_projects py) (process b))) as [[|q qs]|e];
      cbn -[run scan_for_projects]; rewrite ?Hnone; split; reflexivity. }
  destruct Hrun as [Hsent Hfinal]. split_and!; try assumption.
  destruct (returned_is_sent py net _ _ Hp) as (x & Hkey & Hx).
  exists x. rewrite Hfinal. split_and!; try assumption.
  intros net' w' Hsub. apply seen_never_returned. set_solver.
Qed.

Lemma matches_without_recipient_are_dropped_witness :
  h_sent (scheduled_scan ascii_builtins ascii_format_f0
            (provider [summary "foo"] bare_detail) delivering booted) = [] /\
  process (h_final (scheduled_scan ascii_builtins ascii_format_f0
                      (provider [summary "foo"] bare_detail) delivering booted))
    = final (run (provider [summary "foo"] bare_detail)
                 (scan_for_projects ascii_builtins) (process booted)) /\
  exists x,
    project_key bare_record = Val x /\
    (x ∈ sent_projects
           (process (h_final (scheduled_scan ascii_builtins ascii_format_f0
                                (provider [summary "foo"] bare_detail)
                                delivering booted)))) /\
    forall net' w',
      sent_projects
        (process (h_final (scheduled_scan ascii_builtins ascii_format_f0
                             (provider [summary "foo"] bare_detail)
                             delivering booted)))
        ⊆ sent_projects w' ->
      Val x ∉ map project_key (returned (run net' (scan_for_projects ascii_builtins) w')).
Proof.
  apply (matches_without_recipient_are_dropped ascii_builtins ascii_format_f0
           (provider [summary "foo"] bare_detail) delivering booted bare_record).
  - reflexivity.
  - vm_compute. left.
Defined.

(** X10. With a recipient registered and Telegram accepting the calls,
    [/scan] answers with the start notice, then either with the notice
    that nothing was found, or with the number of records the scan
    returned followed by one alert per record, in the order of the scan,
    each to the recipient and carrying the record's button data. *)
Theorem scan_command_reports_then_alerts
    py format_f0 net telegram b c projects alerts :
  user_chat_id b = Some c ->
  c <> 0 ->
  (forall n o, telegram n o = true) ->
  result (run net (scan_for_projects py) (tick (process b))) = Val projects ->
  Forall2 (fun p a => alert_for py format_f0 c p = HVal a) projects alerts ->
  h_result (scan_command py format_f0 net telegram b) = HVal tt /\
  h_sent (scan_command py format_f0 net telegram b)
  = ReplyText (magnifier ++ lit " Starting manual scan... This may take a minute.")
              false
    :: match projects with
       | [] => [ReplyText (lit "No new projects found matching criteria.") false]
       | _ :: _ =>
           ReplyText (check_mark ++ lit " Found "
                      ++ fmt py (JInt (Z.of_nat (length projects)))
                      ++ lit " new project(s)!") false
           :: alerts
       end.
Proof.
  intros Hchat Hc Hdelivers Hres Halerts.
  unfold scan_command, mbind, handler_bind, await, call.
  cbn -[run scan_for_projects send_alerts]. rewrite !Hdelivers.
  cbn -[run scan_for_projects send_alerts]. rewrite Hres.
  cbn -[run scan_for_projects send_alerts].
  destruct projects as [|p projects].
  - rewrite Hdelivers. split; reflexivity.
  - rewrite Hdelivers. cbn -[run scan_for_projects send_alerts].
    edestruct (send_alerts_delivered py format_f0 telegram (p :: projects) alerts)
      as (Hr & Hs & _); [| exact Hc | exact Hdelivers | exact Halerts |].
    2:{ rewrite Hr, Hs. split; reflexivity. }
    exact Hchat.
Qed.

Lemma scan_command_reports_then_alerts_witness :
  exists text,
    format_quick_summary ascii_builtins ascii_format_f0 bare_record = HVal text /\
    h_result (scan_command ascii_builtins ascii_format_f0
                (provider [summary "foo"] bare_detail) delivering registered_7)
      = HVal tt /\
    h_sent (scan_command ascii_builtins ascii_format_f0
              (provider [summary "foo"] bare_detail) delivering registered_7)
      = [ReplyText (magnifier ++ lit " Starting manual scan... This may take a minute.")
                   false;
         ReplyText (check_mark ++ lit " Found 1 new project(s)!") false;
         SendMessage 7 text (page ++ lit " Full Details") (lit "details_foo")].
Proof.
  assert (Hsummary : exists text,
            format_quick_summary ascii_builtins ascii_format_f0 bare_record
            = HVal text).
  { vm_compute. eexists. reflexivity. }
  destruct Hsummary as [text Hsummary]. exists text.
  split; [exact Hsummary|].
  apply (scan_command_reports_then_alerts ascii_builtins ascii_format_f0
           (provider [summary "foo"] bare_detail) delivering registered_7 7
           [bare_record]
           [SendMessage 7 text (page ++ lit " Full Details") (lit "details_foo")]).
  - reflexivity.
  - discriminate.
  - reflexivity.
  - vm_compute. reflexivity.
  - repeat constructor. unfold alert_for. rewrite Hsummary. reflexivity.
Defined.

Lemma scan_command_goes_to py format_f0 net telegram b c :
  user_chat_id b = Some c ->
  Forall (goes_to c) (h_sent (scan_command py format_f0 net telegram b)).
Proof.
  intros Hchat. unfold scan_command, mbind, handler_bind, await, call.
  cbn -[run scan_for_projects send_alerts].
  destruct (telegram (clock (process b)) _); cbn -[run scan_for_projects send_alerts];
    [|constructor].
  destruct (result (run net (scan_for_projects py) (tick (process b))))
    as [[|p projects]|e]; cbn -[run scan_for_projects send_alerts].
  - destruct (telegram _ _); repeat constructor.
  - destruct (telegram _ _); cbn -[run scan_for_projects send_alerts];
      [|repeat constructor].
    constructor; [exact I|]. constructor; [exact I|].
    by apply send_alerts_go_to.
  - repeat constructor.
Qed.

Lemma scheduled_scan_goes_to py format_f0 net telegram b c :
  user_chat_id b = Some c ->
  Forall (goes_to c) (h_sent (scheduled_scan py format_f0 net telegram b)).
Proof.
  intros Hchat. unfold scheduled_scan, mbind, handler_bind, await, get_chat.
  cbn -[run scan_for_projects send_alerts].
  destruct (result (run net (scan_for_projects py) (process b)))
    as [[|p projects]|e]; cbn -[run scan_for_projects send_alerts];
    try constructor.
  rewrite Hchat. destruct (registered (Some c)); [|constructor].
  by apply send_alerts_go_to.
Qed.

(** X11. The bot has one recipient, the chat of the last [/start]:
    after a [/start] from one chat and then from another, whether or not
    the welcome messages went through, every alert of a later [/scan] or
    hourly scan goes to the second chat. *)
Theorem last_start_wins py format_f0 net telegram first second b :
  user_chat_id
    (h_final (start_command telegram second
                (h_final (start_command telegram first b)))) = Some second /\
  Forall (goes_to second)
    (h_sent (scan_command py format_f0 net telegram
               (h_final (start_command telegram second
                           (h_final (start_command telegram first b)))))) /\
  Forall (goes_to second)
    (h_sent (scheduled_scan py format_f0 net telegram
               (h_final (start_command telegram second
                           (h_final (start_command telegram first b)))))).
Proof.
  assert (Hchat : user_chat_id
            (h_final (start_command telegram second
                        (h_final (start_command telegram first b)))) = Some second).
  { unfold start_command, mbind, handler_bind, set_chat, call. cbn.
    repeat case_match; reflexivity. }
  split_and!.
  - exact Hchat.
  - by apply scan_command_goes_to.
  - by apply scheduled_scan_goes_to.
Qed.

(** ** The texts *)

Lemma all_str_strings cs : all_str (map JStr cs) = Val cs.
Proof. induction cs as [|c cs IH]; [reflexivity|]. cbn. by rewrite IH. Qed.

Lemma py_join_strings sep cs : py_join sep (JList (map JStr cs)) = Val (join_with sep cs).
Proof. unfold py_join. cbn. by rewrite all_str_strings. Qed.

Lemma shown_description_str d :
  shown_description (JStr d)
  = Val (JStr (if decide (300 < length d)%nat then take 300 d ++ lit "..." else d)).
Proof.
  unfold shown_description. cbn. by destruct (decide (300 < length d)%nat).
Qed.

(** X12. The full details show a description of up to 300 characters
    whole and a longer one as its first 300 characters followed by
    ['...'], in a section of its own at the end of the message; a record
    whose description is the default text gets the same message as one
    whose description is empty, with no such section. *)
Theorem full_details_description py format_f0 p d msg :
  pi_description p = JStr d ->
  format_full_details py format_f0 p = HVal msg ->
  exists shown,
    shown_description (JStr d) = Val (JStr shown) /\
    (length shown <= 303)%nat /\
    ((length d <= 300)%nat -> shown = d) /\
    ((300 < length d)%nat -> shown = take 300 d ++ lit "...") /\
    (d <> [] -> d <> no_description ->
     exists pre,
       msg = pre ++ nl ++ lit "*" ++ info_sign ++ vs16 ++ lit " Description:*"
             ++ nl ++ fmt py (JStr shown) ++ nl) /\
    format_full_details py format_f0 (with_description (JStr no_description) p)
    = format_full_details py format_f0 (with_description (JStr []) p).
Proof.
  intros Hd Hmsg.
  exists (if decide (300 < length d)%nat then take 300 d ++ lit "..." else d).
  split_and!.
  - apply shown_description_str.
  - destruct (decide (300 < length d)%nat).
    + rewrite length_app, length_take. change (length (lit "...")) with 3%nat. lia.
    + lia.
  - intros Hshort. by rewrite decide_False by lia.
  - intros Hlong. by rewrite decide_True by lia.
  - intros Hnonempty Hcustom.
    unfold format_full_details in Hmsg. rewrite Hd, shown_description_str in Hmsg.
    set (shown := if decide (300 < length d)%nat then take 300 d ++ lit "..." else d)
      in *.
    assert (Hshown : truthy (JStr shown) && differs_from_str (JStr shown) no_description
                     = true).
    { apply andb_true_intro. split.
      - unfold shown. destruct (decide (300 < length d)%nat);
          [|by destruct d]. by destruct d.
      - cbn. apply negb_true_iff, bool_decide_eq_false_2.
        unfold shown. destruct (decide (300 < length d)%nat) as [Hlong|]; [|done].
        intros Heq. apply (f_equal length) in Heq.
        rewrite length_app, length_take in Heq.
        change (length (lit "...")) with 3%nat in Heq.
        change (length no_description) with 24%nat in Heq. lia. }
    destruct (if truthy (pi_categories p) then _ else _) as [m1|e] in Hmsg;
      [|discriminate].
    cbn [mbind hres_bind] in Hmsg.
    destruct (if truthy (pi_market_cap p) then _ else _) as [m2|e] in Hmsg;
      [|discriminate].
    cbn [mbind hres_bind of_res] in Hmsg. subst shown.
    match type of Hmsg with
    | (if ?c then _ else _) = _ =>
        replace c with true in Hmsg by (symmetry; exact Hshown)
    end.
    injection Hmsg as <-. eexists. reflexivity.
  - unfold format_full_details, with_description. cbn [pi_id pi_name pi_symbol
      pi_description pi_twitter_followers pi_telegram_users pi_homepage pi_twitter
      pi_telegram pi_discord pi_categories pi_contract_address pi_market_cap].
    rewrite !shown_description_str.
    destruct (if truthy (pi_categories p) then _ else _) as [m1|e]; [|reflexivity].
    cbn [mbind hres_bind].
    destruct (if truthy (pi_market_cap p) then _ else _) as [m2|e]; [|reflexivity].
    reflexivity.
Qed.

Lemma full_details_description_witness :
  exists msg,
    format_full_details ascii_builtins ascii_format_f0 long_record = HVal msg /\
    exists shown,
      shown_description (JStr long_description) = Val (JStr shown) /\
      (length shown <= 303)%nat /\
      ((length long_description <= 300)%nat -> shown = long_description) /\
      ((300 < length long_description)%nat ->
       shown = take 300 long_description ++ lit "...") /\
      (long_description <> [] -> long_description <> no_description ->
       exists pre,
         msg = pre ++ nl ++ lit "*" ++ info_sign ++ vs16 ++ lit " Description:*"
               ++ nl ++ fmt ascii_builtins (JStr shown) ++ nl) /\
      format_full_details ascii_builtins ascii_format_f0
        (with_description (JStr no_description) long_record)
      = format_full_details ascii_builtins ascii_format_f0
          (with_description (JStr []) long_record).
Proof.
  assert (Hmsg : exists msg,
            format_full_details ascii_builtins ascii_format_f0 long_record = HVal msg).
  { vm_compute. eexists. reflexivity. }
  destruct Hmsg as [msg Hmsg]. exists msg. split; [exact Hmsg|].
  apply (full_details_description ascii_builtins ascii_format_f0 long_record
           long_description msg); [reflexivity | exact Hmsg].
Defined.



(** A market cap of a thousand is shown with its separator; one of
    [10^400] cannot be shown. *)
Example quick_summary_market_caps :
  format_quick_summary ascii_builtins ascii_format_f0
    (with_market_cap (JInt 1000) bare_record)
  = HVal (rocket ++ lit " *New Project Alert!*" ++ nl ++ nl
          ++ lit "*Unknown* ($TKN)" ++ nl ++ nl
          ++ bar_chart ++ lit " *Stats:*" ++ nl
          ++ bullet ++ lit " X Followers: 0" ++ nl
          ++ bullet ++ lit " Telegram: 0 members" ++ nl
          ++ bullet ++ lit " Categories: N/A" ++ nl ++ nl
          ++ money_bag ++ lit " Market Cap: $1,000" ++ nl ++ nl
          ++ eyes ++ lit " Tap 'Full Details' for more info") /\
  format_quick_summary ascii_builtins ascii_format_f0
    (with_market_cap (JInt (10 ^ 400)) bare_record)
  = HExc OverflowError.
Proof. split; vm_compute; reflexivity. Qed.

(** The digits are those of the float: [2^53 + 1] is shown as
    [2^53]. *)
Example format_rounds_to_float :
  ascii_format_f0 (2 ^ 53 + 1) = Some (lit "9,007,199,254,740,992") /\
  ascii_format_f0 (-1234567) = Some (lit "-1,234,567") /\
  ascii_format_f0 (2 ^ 1024 - 2 ^ 970 - 1) <> None /\
  ascii_format_f0 (2 ^ 1024 - 2 ^ 970) = None.
Proof. split_and!; vm_compute; congruence. Qed.

(** X14. [/stats] counts what was recorded, not what was delivered:
    after an hourly scan run on a fresh process with nobody registered,
    no alert has been sent, and [/stats] answers with the count of the
    records that scan returned. *)
Theorem stats_counts_undelivered_matches
    py format_f0 net telegram b projects :
  sent_projects (process b) = ∅ ->
  registered (user_chat_id b) = false ->
  result (run net (scan_for_projects py) (process b)) = Val projects ->
  (forall n o, telegram n o = true) ->
  h_sent (scheduled_scan py format_f0 net telegram b) = [] /\
  size (sent_projects
          (process (h_final (scheduled_scan py format_f0 net telegram b))))
    = length projects /\
  h_sent (stats_command py telegram
            (h_final (scheduled_scan py format_f0 net telegram b)))
    = [ReplyText
         (stats_message py
            (sent_projects
               (process (h_final (scheduled_scan py format_f0 net telegram b)))))
         true] /\
  process (h_final (stats_command py telegram
                      (h_final (scheduled_scan py format_f0 net telegram b))))
    = tick (process (h_final (scheduled_scan py format_f0 net telegram b))).
Proof.
  intros Hempty Hnone Hres Hdelivers.
  assert (Hrun : h_sent (scheduled_scan py format_f0 net telegram b) = [] /\
                 process (h_final (scheduled_scan py format_f0 net telegram b))
                 = final (run net (scan_for_projects py) (process b))).
  { unfold scheduled_scan, mbind, handler_bind, await, get_chat.
    cbn -[run scan_for_projects].
    destruct (result (run net (scan_for_projects py) (process b))) as [[|q qs]|e];
      cbn -[run scan_for_projects]; rewrite ?Hnone; split; reflexivity. }
  destruct Hrun as [Hsent Hfinal].
  split_and!.
  - exact Hsent.
  - rewrite Hfinal.
    destruct (scan_sound py net (process b)) as [Hstore _ Hnodup _ Hemitted].
    destruct (Hemitted projects Hres) as (new & Hnew & Hkeys).
    rewrite app_nil_l in Hnew. subst new.
    rewrite Hstore, Hempty, (right_id_L ∅ (∪)), size_list_to_set by exact Hnodup.
    apply (f_equal length) in Hkeys. by rewrite !length_map in Hkeys.
  - unfold stats_command, mbind, handler_bind, get_sent, call. cbn.
    by rewrite Hdelivers.
  - unfold stats_command, mbind, handler_bind, get_sent, call. cbn.
    by rewrite Hdelivers.
Qed.

Lemma stats_counts_undelivered_matches_witness :
  h_sent (scheduled_scan ascii_builtins ascii_format_f0
            (provider [summary "foo"; summary "bar"] bare_detail) delivering booted)
    = [] /\
  size (sent_projects
          (process (h_final (scheduled_scan ascii_builtins ascii_format_f0
                               (provider [summary "foo"; summary "bar"] bare_detail)
                               delivering booted))))
    = 2%nat.
Proof.
  destruct (stats_counts_undelivered_matches ascii_builtins ascii_format_f0
              (provider [summary "foo"; summary "bar"] bare_detail) delivering booted
              (returned (run (provider [summary "foo"; summary "bar"] bare_detail)
                             (scan_for_projects ascii_builtins) (process booted))))
    as (Hsent & Hsize & _).
  - reflexivity.
  - reflexivity.
  - vm_compute. reflexivity.
  - reflexivity.
  - split; [exact Hsent | exact Hsize].
Defined.
